(** * de_dts_without_de_ac3_eac3_truehd: the library file test of the plugin

    A shallow embedding of [plugin.py] and the properties of its four
    functions: [_parse_lang_tags], [_ffprobe_audio_streams],
    [_has_de_dts_and_no_de_good] and [on_library_management_file_test].

    Modelling conventions.
    - A Python [str] is a [string]; each character is read as the code point
      of the same number, so the strings covered are those of code points
      below 256.  On that range [str.lower] and [str.strip] act character by
      character and are written out below.
    - The values that [json.loads] produces and that the host stores in
      [data] are the inductive [pyval]; a [dict] with string keys is a
      [gmap string pyval].
    - An exception is identified by its class; a function that may raise
      returns a [res].
    - [subprocess.run], [json.loads] and the host's settings store are not
      code of the plugin: they are the fields of a [world] that the functions
      receive.  Logging has no effect on any returned value and is left out.
    - [data] is updated in place; a function that updates it returns its
      outcome together with [data] as the call leaves it, also when it
      raises.  The values stored in [data] are held by value. *)

From Stdlib Require Import ZArith NArith Ascii String Floats.SpecFloat.
From stdpp Require Import base gmap sets list strings.

Open Scope string_scope.

(** ** Python values *)

#[warnings="-register-all"]
Inductive pyval : Type :=
  | PNone
  | PBool (b : bool)
  | PInt (z : Z)
  | PFloat (f : spec_float)
  | PStr (s : string)
  | PList (l : list pyval)
  | PDict (d : gmap string pyval).

Inductive exn : Type :=
  | AttributeError
  | TypeError
  | KeyError
  | JSONDecodeError
  | RecursionError
  | CalledProcessError
  | FileNotFoundError
  | OtherException.

Inductive res (A : Type) : Type :=
  | Ok (a : A)
  | Raise (e : exn).
Arguments Ok {A} a.
Arguments Raise {A} e.

(** Sequencing: the first exception raised ends the computation. *)
#[global] Instance res_bind : MBind res := λ A B k m,
  match m with
  | Ok a => k a
  | Raise e => Raise e
  end.

#[global] Instance res_ret : MRet res := λ A a, Ok a.

(** [bool(v)]: the truth value of a Python object. *)
Definition truthy (v : pyval) : bool :=
  match v with
  | PNone => false
  | PBool b => b
  | PInt z => negb (z =? 0)%Z
  | PFloat f => match f with S754_zero _ => false | _ => true end
  | PStr s => negb (String.eqb s "")
  | PList l => match l with [] => false | _ => true end
  | PDict d => negb (bool_decide (d = ∅))
  end.

(** [a or b] *)
Definition py_or (a b : pyval) : pyval := if truthy a then a else b.

(** [v.get(key)]: only a dict has the method. *)
Definition py_get (v : pyval) (key : string) : res pyval :=
  match v with
  | PDict d => Ok (default PNone (d !! key))
  | _ => Raise AttributeError
  end.

(** ** Strings *)

Definition code (c : ascii) : N := N_of_ascii c.

(** [str.isspace] on one character *)
Definition is_space (c : ascii) : bool :=
  let n := code c in
  ((9 <=? n) && (n <=? 13) || (28 <=? n) && (n <=? 32)
   || (n =? 133) || (n =? 160))%N.

(** [str.lower] on one character *)
Definition lower_char (c : ascii) : ascii :=
  let n := code c in
  if ((65 <=? n) && (n <=? 90)
      || (192 <=? n) && (n <=? 222) && negb (n =? 215))%N
  then ascii_of_N (n + 32) else c.

Fixpoint lower (s : string) : string :=
  match s with
  | EmptyString => EmptyString
  | String c s' => String (lower_char c) (lower s')
  end.

Fixpoint lstrip (s : string) : string :=
  match s with
  | EmptyString => EmptyString
  | String c s' => if is_space c then lstrip s' else s
  end.

Fixpoint rstrip (s : string) : string :=
  match s with
  | EmptyString => EmptyString
  | String c s' =>
      match rstrip s' with
      | EmptyString => if is_space c then EmptyString else String c EmptyString
      | r => String c r
      end
  end.

(** [s.strip()] *)
Definition strip (s : string) : string := rstrip (lstrip s).

(** [s.split(sep)] for a one-character separator *)
Fixpoint split (sep : ascii) (s : string) : list string :=
  match s with
  | EmptyString => [EmptyString]
  | String c s' =>
      if Ascii.eqb c sep then EmptyString :: split sep s'
      else match split sep s' with
           | [] => [String c EmptyString]
           | p :: ps => String c p :: ps
           end
  end.

(** [sep.join(l)] *)
Fixpoint join (sep : string) (l : list string) : string :=
  match l with
  | [] => EmptyString
  | [p] => p
  | p :: ps => p ++ sep ++ join sep ps
  end.

(** [c in s] for a character [c] *)
Fixpoint has_char (c : ascii) (s : string) : bool :=
  match s with
  | EmptyString => false
  | String c' s' => Ascii.eqb c' c || has_char c s'
  end.

(** [s.startswith(p)] *)
Fixpoint startswith (p s : string) : bool :=
  match p, s with
  | EmptyString, _ => true
  | String _ _, EmptyString => false
  | String a p', String b s' => Ascii.eqb a b && startswith p' s'
  end.

(** [v.lower()]: only a str has the method. *)
Definition py_lower (v : pyval) : res string :=
  match v with
  | PStr s => Ok (lower s)
  | _ => Raise AttributeError
  end.

(** ** _parse_lang_tags *)

Definition _parse_lang_tags (raw : pyval) : res (list string) :=
  if negb (truthy raw) then Ok []
  else match raw with
       | PStr s =>
           Ok (map (fun t => lower (strip t))
                   (filter (fun t => Is_true (truthy (PStr (strip t))))
                           (split "," s)))
       | _ => Raise AttributeError
       end.

(** The normalizer as the specification words it: split on commas, trim each
    piece, drop the empty pieces, lowercase the rest. *)
Definition normalize_spec (s : string) : list string :=
  map lower (filter (fun t => t ≠ "") (map strip (split "," s))).

(** ** _has_de_dts_and_no_de_good *)

(** [good_codecs] after the optional [add] *)
Definition good_codecs (treat_truehd_as_good : bool) : gset string :=
  let good : gset string := {[ "ac3"; "eac3" ]} in
  if treat_truehd_as_good then good ∪ {[ "truehd" ]} else good.

(** [(stream.get("codec_name") or "").lower()] *)
Definition stream_codec (stream : pyval) : res string :=
  v ← py_get stream "codec_name";
  py_lower (py_or v (PStr "")).

(** [stream.get("tags") or {}] *)
Definition stream_tags (stream : pyval) : res pyval :=
  v ← py_get stream "tags";
  mret (py_or v (PDict ∅)).

(** [(tags.get("language") or "").lower()] *)
Definition tags_lang (tags : pyval) : res string :=
  v ← py_get tags "language";
  py_lower (py_or v (PStr "")).

(** The guard of the [continue]: [lang_tags and lang not in lang_tags]. *)
Definition lang_skipped (lang_tags : list string) (lang : string) : bool :=
  match lang_tags with
  | [] => false
  | _ => negb (bool_decide (lang ∈ lang_tags))
  end.

(** The three assignments that compute [lang]. *)
Definition stream_lang (stream : pyval) : res string :=
  tags ← stream_tags stream;
  tags_lang tags.

(** One iteration of the loop over the state [(has_de_dts, has_de_good)]. *)
Definition loop_body (lang_tags : list string) (good : gset string)
    (st : bool * bool) (stream : pyval) : res (bool * bool) :=
  codec ← stream_codec stream;
  lang ← stream_lang stream;
  if lang_skipped lang_tags lang then mret st
  else
    let has_de_dts := if startswith "dts" codec then true else st.1 in
    let has_de_good := if bool_decide (codec ∈ good) then true else st.2 in
    mret (has_de_dts, has_de_good).

(** A [for] loop whose body may raise. *)
Fixpoint for_each {S A} (body : S → A → res S) (st : S) (l : list A) : res S :=
  match l with
  | [] => mret st
  | x :: l' => st' ← body st x; for_each body st' l'
  end.

Definition _has_de_dts_and_no_de_good (streams : list pyval)
    (lang_tags : list string) (treat_truehd_as_good : bool) : res bool :=
  st ← for_each (loop_body lang_tags (good_codecs treat_truehd_as_good))
                (false, false) streams;
  mret (st.1 && negb st.2).

(** The same scan with the [continue] taken out: no descriptor is skipped. *)
Definition loop_body_noskip (good : gset string)
    (st : bool * bool) (stream : pyval) : res (bool * bool) :=
  codec ← stream_codec stream;
  lang ← stream_lang stream;
  let has_de_dts := if startswith "dts" codec then true else st.1 in
  let has_de_good := if bool_decide (codec ∈ good) then true else st.2 in
  mret (has_de_dts, has_de_good).

Definition evaluate_noskip (streams : list pyval)
    (treat_truehd_as_good : bool) : res bool :=
  st ← for_each (loop_body_noskip (good_codecs treat_truehd_as_good))
                (false, false) streams;
  mret (st.1 && negb st.2).

(** *** Descriptors as the data model has them *)

(** A field that holds text, or nothing that counts: absent, [None], or any
    other value that [or] replaces by its right operand. *)
Definition text_or_falsy (v : option pyval) : bool :=
  match v with
  | None => true
  | Some (PStr _) => true
  | Some v => negb (truthy v)
  end.

Definition tags_ok (v : option pyval) : bool :=
  match v with
  | None => true
  | Some (PDict t) => text_or_falsy (t !! "language")
  | Some v => negb (truthy v)
  end.

(** Every field of the descriptor is absent, falsy or of its type. *)
Definition descriptor_ok (stream : pyval) : bool :=
  match stream with
  | PDict d => text_or_falsy (d !! "codec_name") && tags_ok (d !! "tags")
  | _ => false
  end.

Definition text_of (v : option pyval) : string :=
  match v with
  | Some (PStr s) => s
  | _ => ""
  end.

(** The codec name of a descriptor as reported, the empty string when there
    is none. *)
Definition codec_text (stream : pyval) : string :=
  match stream with
  | PDict d => text_of (d !! "codec_name")
  | _ => ""
  end.

(** The language tag of a descriptor as reported, the empty string when there
    is none. *)
Definition language_text (stream : pyval) : string :=
  match stream with
  | PDict d =>
      match d !! "tags" with
      | Some (PDict t) => text_of (t !! "language")
      | _ => ""
      end
  | _ => ""
  end.

(** A language tag passes the filter: there is no filter, or the tag is one
    of its members. *)
Definition passes (lang_tags : list string) (lang : string) : Prop :=
  lang_tags = [] ∨ lang ∈ lang_tags.

(** The descriptor is examined and is a DTS candidate. *)
Definition dts_candidate (lang_tags : list string) (stream : pyval) : bool :=
  negb (lang_skipped lang_tags (lower (language_text stream)))
  && startswith "dts" (lower (codec_text stream)).

(** The descriptor is examined and has an acceptable codec. *)
Definition acceptable (lang_tags : list string) (good : gset string)
    (stream : pyval) : bool :=
  negb (lang_skipped lang_tags (lower (language_text stream)))
  && bool_decide (lower (codec_text stream) ∈ good).

(** A field is missing: the key is absent or its value is [None]. *)
Definition missing (v : option pyval) : Prop := v = None ∨ v = Some PNone.

Definition missing_language (d : gmap string pyval) : Prop :=
  missing (d !! "tags")
  ∨ ∃ t, d !! "tags" = Some (PDict t) ∧ missing (t !! "language").

(** The descriptor ffprobe prints for an audio stream. *)
Definition descriptor (codec lang : string) : pyval :=
  PDict {[ "codec_name" := PStr codec;
           "codec_type" := PStr "audio";
           "tags" := PDict {[ "language" := PStr lang ]} ]}.

(** ** _ffprobe_audio_streams *)

(** What the plugin calls but does not define. *)
Record world := {
  (** [subprocess.run(cmd, ..., check=True, text=True)]: the captured
      standard output, or the exception of a failed invocation *)
  subprocess_run : list pyval → res string;
  (** [json.loads] *)
  json_loads : string → res pyval;
  (** [Settings(library_id=...).get_setting(key)] *)
  get_setting : pyval → string → pyval;
}.

Definition ffprobe_cmd (path : pyval) : list pyval :=
  [ PStr "ffprobe";
    PStr "-v"; PStr "error";
    PStr "-select_streams"; PStr "a";
    PStr "-show_entries";
    PStr "stream=index,codec_name,codec_type:stream_tags=language";
    PStr "-of"; PStr "json";
    path ].

Fixpoint chars (s : string) : list pyval :=
  match s with
  | EmptyString => []
  | String c s' => PStr (String c EmptyString) :: chars s'
  end.

(** The elements a [for] sees.  A dict yields its keys; every key is a str,
    which is all that the comprehension below can observe of them. *)
Definition py_iter (v : pyval) : res (list pyval) :=
  match v with
  | PList l => Ok l
  | PStr s => Ok (chars s)
  | PDict d => Ok (PStr <$> (map_to_list d).*1)
  | _ => Raise TypeError
  end.

(** [v == s] for a str [s] *)
Definition py_eq_str (v : pyval) (s : string) : bool :=
  match v with
  | PStr t => String.eqb t s
  | _ => false
  end.

(** [[s for s in streams if s.get("codec_type") == "audio"]] *)
Fixpoint audio_only (streams : list pyval) : res (list pyval) :=
  match streams with
  | [] => mret []
  | s :: rest =>
      t ← py_get s "codec_type";
      kept ← audio_only rest;
      mret (if py_eq_str t "audio" then s :: kept else kept)
  end.

Definition _ffprobe_audio_streams (w : world) (path : pyval)
  : res (list pyval) :=
  match subprocess_run w (ffprobe_cmd path) with
  | Raise _ => Ok []
  | Ok stdout =>
      match json_loads w stdout with
      | Raise JSONDecodeError => Ok []
      | Raise e => Raise e
      | Ok data =>
          v ← py_get data "streams";
          streams ← py_iter (py_or v (PList []));
          audio_only streams
      end
  end.

(** ** on_library_management_file_test *)

Definition plugin_id : string := "de_dts_without_de_ac3_eac3_truehd".

Definition a_uml : string := String (ascii_of_N 228) EmptyString.
Definition u_uml : string := String (ascii_of_N 252) EmptyString.

Definition msg_no_path : string :=
  "Kein Dateipfad im Plugin-Runner verf" ++ u_uml ++ "gbar.".
Definition msg_no_streams : string :=
  "ffprobe lieferte keine Audio-Streams - Datei wird nicht explizit gefiltert.".
Definition msg_admit : string :=
  "Datei enth" ++ a_uml ++ "lt DE-DTS, aber keine DE-AC3/EAC3/TrueHD - f"
  ++ u_uml ++ "r EAC3-Transcode zulassen.".
Definition msg_ignore : string :=
  "Datei ignoriert: Entweder keine DE-DTS-Spur oder bereits DE-AC3/EAC3/TrueHD vorhanden.".

(** The entry [{"id": ..., "message": ...}] *)
Definition issue (message : string) : pyval :=
  PDict {[ "id" := PStr plugin_id; "message" := PStr message ]}.

(** [data["issues"].append(entry)]: the outcome and [data] afterwards. *)
Definition append_issue (entry : pyval) (data : gmap string pyval)
  : res unit * gmap string pyval :=
  match data !! "issues" with
  | None => (Raise KeyError, data)
  | Some (PList l) => (Ok tt, <["issues" := PList (l ++ [entry])]> data)
  | Some _ => (Raise AttributeError, data)
  end.

(** [Settings(library_id=data.get("library_id"))] *)
Definition settings_for (w : world) (data : gmap string pyval)
  : string → pyval :=
  get_setting w (default PNone (data !! "library_id")).

(** [lang_raw] *)
Definition lang_raw (w : world) (data : gmap string pyval) : pyval :=
  settings_for w data "Preferred language tags (comma separated)".

(** [treat_truehd] *)
Definition treat_truehd (w : world) (data : gmap string pyval) : bool :=
  truthy (settings_for w data "Treat Dolby TrueHD as good codec").

(** [data.get("path")] *)
Definition path_of (data : gmap string pyval) : pyval :=
  default PNone (data !! "path").

Definition on_library_management_file_test (w : world)
    (data : gmap string pyval) : res unit * gmap string pyval :=
  match _parse_lang_tags (lang_raw w data) with
  | Raise e => (Raise e, data)
  | Ok lang_tags =>
      let treat_truehd := treat_truehd w data in
      let path := path_of data in
      if negb (truthy path) then append_issue (issue msg_no_path) data
      else
        match _ffprobe_audio_streams w path with
        | Raise e => (Raise e, data)
        | Ok streams =>
            if negb (truthy (PList streams))
            then append_issue (issue msg_no_streams) data
            else
              match _has_de_dts_and_no_de_good streams lang_tags treat_truehd
              with
              | Raise e => (Raise e, data)
              | Ok candidate =>
                  if candidate then
                    append_issue (issue msg_admit)
                      (<["add_file_to_pending_tasks" := PBool true]> data)
                  else
                    append_issue (issue msg_ignore)
                      (<["add_file_to_pending_tasks" := PBool false]> data)
              end
        end
  end.

(** *** Concrete worlds *)

(** The values of [Settings.settings]. *)
Definition default_settings (library_id : pyval) (key : string) : pyval :=
  if String.eqb key "Preferred language tags (comma separated)"
  then PStr "deu,de,ger"
  else if String.eqb key "Treat Dolby TrueHD as good codec"
  then PBool true
  else PNone.

(** A world in which the tool exits with status 0 after printing [out], and
    [out] is the JSON text of the value [v]. *)
Definition tool_prints (out : string) (v : pyval) : world :=
  {| subprocess_run := λ _, Ok out;
     json_loads := λ s, if String.eqb s out then Ok v else Raise JSONDecodeError;
     get_setting := default_settings |}.

(** A world in which the tool cannot be run. *)
Definition tool_missing : world :=
  {| subprocess_run := λ _, Raise FileNotFoundError;
     json_loads := λ _, Raise JSONDecodeError;
     get_setting := default_settings |}.

(** The text ffprobe prints for a file with one German DTS stream, and the
    value [json.loads] makes of it. *)
Definition quoted (s : string) : string :=
  String (ascii_of_N 34) s ++ String (ascii_of_N 34) EmptyString.

Definition one_dts_stream_text : string :=
  "{" ++ quoted "streams" ++ ": [{"
  ++ quoted "codec_name" ++ ": " ++ quoted "dts" ++ ", "
  ++ quoted "codec_type" ++ ": " ++ quoted "audio" ++ ", "
  ++ quoted "tags" ++ ": {" ++ quoted "language" ++ ": " ++ quoted "deu"
  ++ "}}]}".

Definition one_dts_stream_value : pyval :=
  PDict {[ "streams" := PList [descriptor "dts" "deu"] ]}.

Definition one_dts_stream : world :=
  tool_prints one_dts_stream_text one_dts_stream_value.

(** The record the host passes for a file it has found. *)
Definition host_data (path : string) : gmap string pyval :=
  {[ "library_id" := PInt 1;
     "path" := PStr path;
     "issues" := PList [];
     "priority_score" := PInt 0 ]}.

(** *** Further notions used by the properties *)

(** [all(f(c) for c in s)] *)
Fixpoint string_forall (f : ascii → bool) (s : string) : bool :=
  match s with
  | EmptyString => true
  | String c s' => f c && string_forall f s'
  end.

(** The test of the prober's comprehension: [s.get("codec_type") == "audio"]
    on a dict. *)
Definition is_audio (s : pyval) : bool :=
  match s with
  | PDict d => py_eq_str (default PNone (d !! "codec_type")) "audio"
  | _ => false
  end.

(** The descriptor's language is one the filter lets through. *)
Definition in_language (lang_tags : list string) (stream : pyval) : bool :=
  negb (lang_skipped lang_tags (lower (language_text stream))).

(** * Properties *)

(** ** The scenarios of the specification, evaluated *)

Example parse_default_setting :
  _parse_lang_tags (PStr "deu,de,ger") = Ok ["deu"; "de"; "ger"].
Proof. reflexivity. Qed.

Example parse_untidy_setting :
  _parse_lang_tags (PStr " DEU, de ,,Ger ,  ") = Ok ["deu"; "de"; "ger"].
Proof. reflexivity. Qed.

Example parse_number_raises :
  _parse_lang_tags (PInt 7) = Raise AttributeError.
Proof. reflexivity. Qed.

Example scenario_A :
  _has_de_dts_and_no_de_good [descriptor "dts" "deu"] ["deu"] true = Ok true.
Proof. vm_compute. reflexivity. Qed.

Example scenario_B :
  _has_de_dts_and_no_de_good
    [descriptor "dts" "deu"; descriptor "ac3" "deu"] ["deu"] true = Ok false.
Proof. vm_compute. reflexivity. Qed.

Example scenario_C :
  _has_de_dts_and_no_de_good [descriptor "dts" "eng"] ["deu"] true = Ok false.
Proof. vm_compute. reflexivity. Qed.

Example scenario_E :
  on_library_management_file_test tool_missing (host_data "/media/film.mkv")
  = (Ok tt, <["issues" := PList [issue msg_no_streams]]>
              (host_data "/media/film.mkv")).
Proof. reflexivity. Qed.

Example scenario_F :
  _has_de_dts_and_no_de_good [descriptor "dtshd" "deu"] ["deu"] true = Ok true.
Proof. vm_compute. reflexivity. Qed.

Example codec_of_wrong_type_raises :
  _has_de_dts_and_no_de_good [PDict {[ "codec_name" := PInt 3 ]}] [] true
  = Raise AttributeError.
Proof. vm_compute. reflexivity. Qed.

(** ** Strings *)

Ltac by_cases_on_char c :=
  destruct c as [[] [] [] [] [] [] [] []]; vm_compute; reflexivity.

Lemma lower_char_idemp c : lower_char (lower_char c) = lower_char c.
Proof. by_cases_on_char c. Qed.

Lemma is_space_lower_char c : is_space (lower_char c) = is_space c.
Proof. by_cases_on_char c. Qed.

Lemma lower_idemp s : lower (lower s) = lower s.
Proof. induction s as [|c s IH]; simpl; [done|]. by rewrite lower_char_idemp, IH. Qed.

Lemma lower_empty_inv s : lower s = "" → s = "".
Proof. by destruct s. Qed.

Lemma lstrip_lower s : lstrip (lower s) = lower (lstrip s).
Proof.
  induction s as [|c s IH]; simpl; [done|].
  rewrite is_space_lower_char. by destruct (is_space c).
Qed.

Lemma rstrip_lower s : rstrip (lower s) = lower (rstrip s).
Proof.
  induction s as [|c s IH]; simpl; [done|].
  rewrite IH, is_space_lower_char.
  destruct (rstrip s); simpl; [|done]. by destruct (is_space c).
Qed.

Lemma strip_lower s : strip (lower s) = lower (strip s).
Proof. unfold strip. by rewrite lstrip_lower, rstrip_lower. Qed.

Lemma rstrip_idemp s : rstrip (rstrip s) = rstrip s.
Proof.
  induction s as [|c s IH]; simpl; [done|].
  destruct (rstrip s) as [|c' r] eqn:E.
  - destruct (is_space c) eqn:Ec; simpl; [done|]. by rewrite Ec.
  - change (rstrip (String c (String c' r))) with
      (match rstrip (String c' r) with
       | EmptyString => if is_space c then EmptyString else String c EmptyString
       | r0 => String c r0
       end).
    by rewrite IH.
Qed.

Lemma rstrip_nonspace c s :
  is_space c = false → rstrip (String c s) = String c (rstrip s).
Proof. intros Hc. simpl. rewrite Hc. by destruct (rstrip s). Qed.

Lemma lstrip_head s :
  lstrip s = "" ∨ ∃ c r, lstrip s = String c r ∧ is_space c = false.
Proof.
  induction s as [|c s IH]; simpl; [by left|].
  destruct (is_space c) eqn:Ec; [done|]. right. by exists c, s.
Qed.

Lemma strip_idemp s : strip (strip s) = strip s.
Proof.
  unfold strip. destruct (lstrip_head s) as [->|(c & r & -> & Hc)]; [done|].
  rewrite rstrip_nonspace by done. simpl. rewrite Hc.
  rewrite <- rstrip_nonspace by done. apply rstrip_idemp.
Qed.

Lemma rstrip_last s r c : rstrip s = r ++ String c "" → is_space c = false.
Proof.
  revert r. induction s as [|a s IH]; intros r; simpl.
  - by destruct r.
  - destruct (rstrip s) as [|b r'] eqn:E.
    + destruct (is_space a) eqn:Ea; [by destruct r|].
      destruct r as [|a' r]; simpl; [by intros [= <-]|].
      intros [= _ H]. by destruct r.
    + destruct r as [|a' r]; simpl; [done|].
      intros [= _ H]. by apply (IH r).
Qed.

(** A string that [strip] leaves alone neither starts nor ends with
    whitespace. *)
Lemma strip_fixed_ends t :
  strip t = t →
  (∀ c r, t = String c r → is_space c = false)
  ∧ (∀ r c, t = r ++ String c "" → is_space c = false).
Proof.
  unfold strip. intros Ht. split.
  - intros c r ->. destruct (lstrip_head (String c r)) as [H|(c' & r' & H & Hc)];
      rewrite H in Ht; [done|].
    rewrite rstrip_nonspace in Ht by done. by injection Ht as -> _.
  - intros r c Hr. apply (rstrip_last (lstrip t) r). by rewrite Ht.
Qed.

Lemma split_nonempty sep s : split sep s ≠ [].
Proof.
  induction s as [|c s IH]; simpl; [done|].
  destruct (Ascii.eqb c sep); [done|]. by destruct (split sep s).
Qed.

Lemma join_cons_char sep c p ps :
  join sep (String c p :: ps) = String c (join sep (p :: ps)).
Proof. by destruct ps. Qed.

Lemma join_split sep s : join (String sep "") (split sep s) = s.
Proof.
  induction s as [|c s IH]; simpl; [done|].
  pose proof (split_nonempty sep s) as Hs.
  destruct (Ascii.eqb_spec c sep) as [->|Hne];
    destruct (split sep s) as [|p ps]; try done.
  - change (join (String sep "") ("" :: p :: ps))
      with (String sep (join (String sep "") (p :: ps))).
    by rewrite IH.
  - by rewrite join_cons_char, IH.
Qed.

Lemma split_no_sep sep s p : p ∈ split sep s → has_char sep p = false.
Proof.
  revert p. induction s as [|c s IH]; simpl; intros p Hp.
  - apply list_elem_of_singleton in Hp. by subst.
  - destruct (Ascii.eqb_spec c sep) as [->|Hne].
    + apply elem_of_cons in Hp as [->|Hp]; [done|]. by apply IH.
    + pose proof (split_nonempty sep s) as Hs.
      destruct (split sep s) as [|q qs]; [done|].
      apply elem_of_cons in Hp as [->|Hp].
      * simpl. rewrite (IH q) by left.
        destruct (Ascii.eqb_spec c sep); [done|done].
      * apply IH. by right.
Qed.

(** ** The tag normalizer *)

Lemma truthy_str s : truthy (PStr s) = true ↔ s ≠ "".
Proof.
  simpl. destruct (String.eqb_spec s ""); split; intros; simplify_eq/=; done.
Qed.

Lemma parse_pieces l :
  map (λ t, lower (strip t))
      (filter (λ t, Is_true (truthy (PStr (strip t)))) l)
  = map lower (filter (λ t, t ≠ "") (map strip l)).
Proof.
  induction l as [|t l IH]; [done|].
  cbn [map]. rewrite !filter_cons.
  destruct (decide (Is_true (truthy (PStr (strip t))))) as [H|H];
    destruct (decide (strip t ≠ "")) as [H'|H']; cbn [map].
  - by rewrite IH.
  - apply Is_true_true, truthy_str in H. done.
  - exfalso. apply H. by apply Is_true_true, truthy_str.
  - done.
Qed.

Lemma parse_lang_tags_str s : _parse_lang_tags (PStr s) = Ok (normalize_spec s).
Proof.
  unfold _parse_lang_tags, normalize_spec.
  destruct (truthy (PStr s)) eqn:E; simpl negb; cbv iota.
  - by rewrite parse_pieces.
  - assert (s = "") as ->; [|done].
    destruct (decide (s = "")) as [|Hne]; [done|].
    apply truthy_str in Hne. congruence.
Qed.

Lemma normalize_spec_token s t :
  t ∈ normalize_spec s → t ≠ "" ∧ lower t = t ∧ strip t = t.
Proof.
  unfold normalize_spec. intros Ht.
  apply list_elem_of_In, in_map_iff in Ht as (u & <- & Hu).
  apply list_elem_of_In, list_elem_of_filter in Hu as [Hne Hu].
  apply list_elem_of_In, in_map_iff in Hu as (p & <- & _).
  split_and!.
  - intros H. by apply lower_empty_inv in H.
  - apply lower_idemp.
  - by rewrite strip_lower, strip_idemp.
Qed.

(** C7. For every raw configuration string [s], [_parse_lang_tags] returns
    exactly the pieces of [s] between commas (joining the pieces with commas
    gives back [s], and no piece holds a comma), each trimmed, the empty ones
    dropped and the others lowercased; every returned token is non-empty,
    equal to its own lowercasing, equal to its own trimming, and neither
    starts nor ends with whitespace; and both the empty string and [None]
    give the empty list. *)
Theorem parse_lang_tags_normalizes (s : string) :
  _parse_lang_tags (PStr s) = Ok (normalize_spec s)
  ∧ join "," (split "," s) = s
  ∧ (∀ p, p ∈ split "," s → has_char "," p = false)
  ∧ (∀ t, t ∈ normalize_spec s →
       t ≠ "" ∧ lower t = t ∧ strip t = t
       ∧ (∀ c r, t = String c r → is_space c = false)
       ∧ (∀ r c, t = r ++ String c "" → is_space c = false))
  ∧ _parse_lang_tags (PStr "") = Ok []
  ∧ _parse_lang_tags PNone = Ok [].
Proof.
  split_and!.
  - apply parse_lang_tags_str.
  - apply join_split.
  - intros p. apply split_no_sep.
  - intros t Ht. destruct (normalize_spec_token s t Ht) as (Hne & Hlow & Hstrip).
    split_and!; [done..| |]; by apply strip_fixed_ends.
  - reflexivity.
  - reflexivity.
Qed.

(** ** The admission evaluator *)

Lemma startswith_prefix p s : startswith p s = true ↔ ∃ rest, s = p ++ rest.
Proof.
  revert s. induction p as [|a p IH]; intros s; simpl.
  - split; [by exists s|done].
  - destruct s as [|b s]; [split; [done|by intros [? ?]]|].
    rewrite andb_true_iff, IH. split.
    + intros [->%Ascii.eqb_eq [rest ->]]. by exists rest.
    + intros [rest [= -> ->]]. split; [apply Ascii.eqb_refl|by exists rest].
Qed.

Lemma lang_skipped_passes lang_tags lang :
  lang_skipped lang_tags lang = false ↔ passes lang_tags lang.
Proof.
  unfold passes. destruct lang_tags as [|t l]; simpl.
  - split; [by left|done].
  - rewrite negb_false_iff, bool_decide_eq_true. split; [by right|].
    by intros [?|?].
Qed.

Lemma text_or_falsy_lower v :
  text_or_falsy v = true →
  py_lower (py_or (default PNone v) (PStr "")) = Ok (lower (text_of v)).
Proof.
  unfold py_or. destruct v as [[| | | |s| |]|]; simpl; try done.
  - by intros ->%negb_true_iff.
  - by intros ->%negb_true_iff.
  - by intros ->%negb_true_iff.
  - by destruct s.
  - by intros ->%negb_true_iff.
  - by intros ->%negb_true_iff.
Qed.

Lemma text_or_falsy_raise v :
  text_or_falsy v = false →
  py_lower (py_or (default PNone v) (PStr "")) = Raise AttributeError.
Proof.
  unfold py_or. destruct v as [[| | | |s| |]|]; simpl; try done.
  - by intros ->%negb_false_iff.
  - by intros ->%negb_false_iff.
  - by intros ->%negb_false_iff.
  - by intros ->%negb_false_iff.
  - by intros ->%negb_false_iff.
Qed.

Lemma stream_codec_dict d :
  stream_codec (PDict d)
  = if text_or_falsy (d !! "codec_name")
    then Ok (lower (codec_text (PDict d))) else Raise AttributeError.
Proof.
  change (stream_codec (PDict d))
    with (py_lower (py_or (default PNone (d !! "codec_name")) (PStr ""))).
  destruct (text_or_falsy _) eqn:H.
  - by apply text_or_falsy_lower.
  - by apply text_or_falsy_raise.
Qed.

Lemma stream_lang_dict d :
  stream_lang (PDict d)
  = if tags_ok (d !! "tags")
    then Ok (lower (language_text (PDict d))) else Raise AttributeError.
Proof.
  change (stream_lang (PDict d))
    with (tags_lang (py_or (default PNone (d !! "tags")) (PDict ∅))).
  unfold py_or, language_text.
  destruct (d !! "tags") as [[| | | | | |t]|]; simpl; try done.
  - by destruct b.
  - by destruct (z =? 0)%Z.
  - by destruct f.
  - by destruct s.
  - by destruct l.
  - destruct (bool_decide_reflect (t = ∅)) as [->|Hne]; simpl; [done|].
    change (tags_lang (PDict t))
      with (py_lower (py_or (default PNone (t !! "language")) (PStr ""))).
    destruct (text_or_falsy _) eqn:H.
    + by apply text_or_falsy_lower.
    + by apply text_or_falsy_raise.
Qed.

Lemma descriptor_ok_dict d :
  descriptor_ok (PDict d)
  = text_or_falsy (d !! "codec_name") && tags_ok (d !! "tags").
Proof. done. Qed.

Lemma stream_codec_ok s :
  descriptor_ok s = true → stream_codec s = Ok (lower (codec_text s)).
Proof.
  destruct s as [| | | | | |d]; try done.
  rewrite descriptor_ok_dict, stream_codec_dict.
  by intros [-> _]%andb_true_iff.
Qed.

Lemma stream_lang_ok s :
  descriptor_ok s = true → stream_lang s = Ok (lower (language_text s)).
Proof.
  destruct s as [| | | | | |d]; try done.
  rewrite descriptor_ok_dict, stream_lang_dict.
  by intros [_ ->]%andb_true_iff.
Qed.

Lemma loop_body_bad lang_tags good st s :
  descriptor_ok s = false →
  loop_body lang_tags good st s = Raise AttributeError.
Proof.
  destruct s as [| | | | | |d]; try done. unfold loop_body.
  rewrite descriptor_ok_dict, stream_codec_dict, stream_lang_dict.
  destruct (text_or_falsy _); [|done]. simpl. by intros ->.
Qed.

Lemma loop_body_ok lang_tags good st s :
  descriptor_ok s = true →
  loop_body lang_tags good st s
  = Ok (st.1 || dts_candidate lang_tags s, st.2 || acceptable lang_tags good s).
Proof.
  intros Hok. unfold loop_body, dts_candidate, acceptable.
  rewrite stream_codec_ok, stream_lang_ok by done.
  destruct st as [dts good']. cbn [mbind res_bind mret res_ret fst snd].
  destruct (lang_skipped lang_tags (lower (language_text s))),
    (startswith "dts" (lower (codec_text s))),
    (bool_decide (lower (codec_text s) ∈ good)), dts, good'; reflexivity.
Qed.

Lemma scan_ok lang_tags good streams st :
  forallb descriptor_ok streams = true →
  for_each (loop_body lang_tags good) st streams
  = Ok (st.1 || existsb (dts_candidate lang_tags) streams,
        st.2 || existsb (acceptable lang_tags good) streams).
Proof.
  revert st. induction streams as [|s l IH]; intros [dts g]; simpl.
  - by rewrite !orb_false_r.
  - intros [Hs Hl]%andb_true_iff. rewrite loop_body_ok by done. simpl.
    rewrite IH by done. simpl. by rewrite !orb_assoc.
Qed.

Lemma scan_bad lang_tags good streams st :
  forallb descriptor_ok streams = false →
  for_each (loop_body lang_tags good) st streams = Raise AttributeError.
Proof.
  revert st. induction streams as [|s l IH]; intros st; simpl; [done|].
  destruct (descriptor_ok s) eqn:Hs; simpl.
  - intros Hl. rewrite loop_body_ok by done. simpl. by apply IH.
  - intros _. by rewrite loop_body_bad.
Qed.

(** The scan in closed form: it raises exactly when some descriptor has a
    field of the wrong type, and else combines two existence tests. *)
Lemma evaluate_closed_form streams lang_tags flag :
  _has_de_dts_and_no_de_good streams lang_tags flag
  = if forallb descriptor_ok streams
    then Ok (existsb (dts_candidate lang_tags) streams
             && negb (existsb (acceptable lang_tags (good_codecs flag)) streams))
    else Raise AttributeError.
Proof.
  unfold _has_de_dts_and_no_de_good.
  destruct (forallb descriptor_ok streams) eqn:Hok.
  - by rewrite scan_ok.
  - by rewrite scan_bad.
Qed.

Lemma dts_candidate_spec lang_tags s :
  dts_candidate lang_tags s = true
  ↔ passes lang_tags (lower (language_text s))
    ∧ ∃ rest, lower (codec_text s) = "dts" ++ rest.
Proof.
  unfold dts_candidate.
  by rewrite andb_true_iff, negb_true_iff, lang_skipped_passes,
    startswith_prefix.
Qed.

Lemma acceptable_spec lang_tags good s :
  acceptable lang_tags good s = true
  ↔ passes lang_tags (lower (language_text s))
    ∧ lower (codec_text s) ∈ good.
Proof.
  unfold acceptable.
  by rewrite andb_true_iff, negb_true_iff, lang_skipped_passes,
    bool_decide_eq_true.
Qed.

(** C1. For every list of stream descriptors (each field absent, empty or of
    its type), language filter and TrueHD flag, the evaluator returns a
    boolean, and that boolean is true if and only if some descriptor whose
    lowercased language tag passes the filter has a lowercased codec name
    that starts with "dts", and no descriptor whose lowercased language tag
    passes the filter has a lowercased codec name in the acceptable set. *)
Theorem evaluate_iff (streams : list pyval) (lang_tags : list string)
    (flag : bool) :
  Forall (λ s, descriptor_ok s = true) streams →
  ∃ b, _has_de_dts_and_no_de_good streams lang_tags flag = Ok b
     ∧ (b = true ↔
          (∃ s, s ∈ streams
              ∧ passes lang_tags (lower (language_text s))
              ∧ ∃ rest, lower (codec_text s) = "dts" ++ rest)
          ∧ ¬ (∃ s, s ∈ streams
                  ∧ passes lang_tags (lower (language_text s))
                  ∧ lower (codec_text s) ∈ good_codecs flag)).
Proof.
  intros Hok. rewrite evaluate_closed_form.
  assert (forallb descriptor_ok streams = true) as ->.
  { apply forallb_forall. intros s Hs.
    rewrite Forall_forall in Hok. by apply Hok, list_elem_of_In. }
  eexists; split; [done|].
  rewrite andb_true_iff, negb_true_iff, <- not_true_iff_false.
  rewrite !existsb_exists.
  setoid_rewrite <- list_elem_of_In.
  setoid_rewrite dts_candidate_spec. setoid_rewrite acceptable_spec.
  done.
Qed.

Lemma evaluate_iff_witness :
  Forall (λ s, descriptor_ok s = true) [descriptor "dtshd" "DEU"]
  ∧ ∃ b, _has_de_dts_and_no_de_good [descriptor "dtshd" "DEU"] ["deu"] true
         = Ok b
     ∧ (b = true ↔
          (∃ s, s ∈ [descriptor "dtshd" "DEU"]
              ∧ passes ["deu"] (lower (language_text s))
              ∧ ∃ rest, lower (codec_text s) = "dts" ++ rest)
          ∧ ¬ (∃ s, s ∈ [descriptor "dtshd" "DEU"]
                  ∧ passes ["deu"] (lower (language_text s))
                  ∧ lower (codec_text s) ∈ good_codecs true)).
Proof.
  assert (Forall (λ s, descriptor_ok s = true) [descriptor "dtshd" "DEU"])
    as Hok by (constructor; [reflexivity|constructor]).
  split; [exact Hok|]. exact (evaluate_iff _ ["deu"] true Hok).
Defined.

(** The hypothesis of [evaluate_iff] is the weakest possible: without it the
    evaluator raises. *)
Lemma evaluate_raises_iff streams lang_tags flag :
  _has_de_dts_and_no_de_good streams lang_tags flag = Raise AttributeError
  ↔ ¬ Forall (λ s, descriptor_ok s = true) streams.
Proof.
  rewrite evaluate_closed_form.
  destruct (forallb descriptor_ok streams) eqn:Hok.
  - split; [done|]. intros H. destruct H. apply Forall_forall.
    intros s Hs. rewrite forallb_forall in Hok. by apply Hok, list_elem_of_In.
  - split; [|done]. intros _ H.
    assert (forallb descriptor_ok streams = true); [|congruence].
    apply forallb_forall. intros s Hs. rewrite Forall_forall in H.
    by apply H, list_elem_of_In.
Qed.

Lemma existsb_perm {A} (f : A → bool) l l' :
  l ≡ₚ l' → existsb f l = existsb f l'.
Proof.
  induction 1 as [|x l l' _ IH|x y l|l l' l'' _ IH1 _ IH2]; simpl.
  - done.
  - by rewrite IH.
  - by destruct (f x), (f y).
  - by rewrite IH1.
Qed.

Lemma forallb_perm {A} (f : A → bool) l l' :
  l ≡ₚ l' → forallb f l = forallb f l'.
Proof.
  induction 1 as [|x l l' _ IH|x y l|l l' l'' _ IH1 _ IH2]; simpl.
  - done.
  - by rewrite IH.
  - by destruct (f x), (f y).
  - by rewrite IH1.
Qed.

(** C5. For every list of stream descriptors, every permutation of it, every
    language filter and every TrueHD flag, the evaluator gives the same
    result on the permuted list as on the original one (the same boolean, or
    the same exception when a descriptor has a field of the wrong type). *)
Theorem evaluate_permutation (streams streams' : list pyval)
    (lang_tags : list string) (flag : bool) :
  streams ≡ₚ streams' →
  _has_de_dts_and_no_de_good streams lang_tags flag
  = _has_de_dts_and_no_de_good streams' lang_tags flag.
Proof.
  intros Hperm. rewrite !evaluate_closed_form.
  rewrite (forallb_perm _ _ _ Hperm).
  rewrite (existsb_perm (dts_candidate lang_tags) _ _ Hperm).
  by rewrite (existsb_perm (acceptable lang_tags _) _ _ Hperm).
Qed.

Lemma evaluate_permutation_witness :
  [descriptor "ac3" "deu"; descriptor "dts" "deu"; descriptor "dts" "eng"]
    ≡ₚ [descriptor "dts" "eng"; descriptor "dts" "deu"; descriptor "ac3" "deu"]
  ∧ _has_de_dts_and_no_de_good
      [descriptor "ac3" "deu"; descriptor "dts" "deu"; descriptor "dts" "eng"]
      ["deu"] true
    = _has_de_dts_and_no_de_good
      [descriptor "dts" "eng"; descriptor "dts" "deu"; descriptor "ac3" "deu"]
      ["deu"] true.
Proof.
  assert ([descriptor "ac3" "deu"; descriptor "dts" "deu"; descriptor "dts" "eng"]
    ≡ₚ [descriptor "dts" "eng"; descriptor "dts" "deu"; descriptor "ac3" "deu"])
    as Hperm.
  { apply (Permutation_rev [_; _; _]). }
  split; [exact Hperm|]. exact (evaluate_permutation _ _ ["deu"] true Hperm).
Defined.


Lemma for_each_ext {S A} (f g : S → A → res S) st l :
  (∀ st x, f st x = g st x) → for_each f st l = for_each g st l.
Proof.
  intros Hfg. revert st. induction l as [|x l IH]; intros st; simpl; [done|].
  rewrite Hfg. destruct (g st x); simpl; [apply IH|done].
Qed.

(** C8. For every list of stream descriptors and every TrueHD flag, with the
    empty language filter the [continue] is taken for no language tag, the
    evaluator equals the scan in which no descriptor is skipped, and its
    result is decided by the codec names alone. *)
Theorem evaluate_empty_filter (streams : list pyval) (flag : bool) :
  (∀ lang, lang_skipped [] lang = false)
  ∧ _has_de_dts_and_no_de_good streams [] flag = evaluate_noskip streams flag
  ∧ _has_de_dts_and_no_de_good streams [] flag
    = if forallb descriptor_ok streams
      then Ok (existsb (λ s, startswith "dts" (lower (codec_text s))) streams
               && negb (existsb (λ s, bool_decide
                           (lower (codec_text s) ∈ good_codecs flag)) streams))
      else Raise AttributeError.
Proof.
  split_and!.
  - done.
  - unfold _has_de_dts_and_no_de_good, evaluate_noskip.
    by rewrite (for_each_ext _ (loop_body_noskip (good_codecs flag))).
  - by rewrite evaluate_closed_form.
Qed.

(** *** Missing fields *)

Lemma missing_text_or_falsy v : missing v → text_or_falsy v = true.
Proof. by intros [->| ->]. Qed.

Lemma missing_text_of v : missing v → text_of v = "".
Proof. by intros [->| ->]. Qed.

Lemma missing_language_tags_ok d : missing_language d → tags_ok (d !! "tags") = true.
Proof.
  intros [[->| ->]|(t & -> & Ht)]; [done..|]. by apply missing_text_or_falsy.
Qed.

Lemma missing_language_text d :
  missing_language d → language_text (PDict d) = "".
Proof.
  unfold language_text.
  intros [[->| ->]|(t & -> & Ht)]; [done..|]. by apply missing_text_of.
Qed.

Lemma lang_skipped_true lang_tags lang :
  lang_skipped lang_tags lang = true ↔ lang_tags ≠ [] ∧ lang ∉ lang_tags.
Proof.
  destruct lang_tags as [|t l]; simpl.
  - split; [done|]. by intros [? _].
  - rewrite negb_true_iff, bool_decide_eq_false. split; [done|]. by intros [_ ?].
Qed.

Lemma parse_lang_tags_no_empty raw lang_tags :
  _parse_lang_tags raw = Ok lang_tags → "" ∉ lang_tags.
Proof.
  destruct raw as [| | | |s| |].
  5: { rewrite parse_lang_tags_str. intros [= <-] Hin.
       by apply normalize_spec_token in Hin as [? _]. }
  all: unfold _parse_lang_tags; destruct (truthy _); simpl; try done.
  all: intros [= <-]; apply not_elem_of_nil.
Qed.

Lemma evaluate_cons_neutral s streams lang_tags flag :
  (∀ st, loop_body lang_tags (good_codecs flag) st s = Ok st) →
  _has_de_dts_and_no_de_good (s :: streams) lang_tags flag
  = _has_de_dts_and_no_de_good streams lang_tags flag.
Proof.
  intros H. unfold _has_de_dts_and_no_de_good. cbn [for_each].
  by rewrite H.
Qed.

Lemma evaluate_single s lang_tags flag :
  descriptor_ok s = true →
  _has_de_dts_and_no_de_good [s] lang_tags flag
  = Ok (dts_candidate lang_tags s
        && negb (acceptable lang_tags (good_codecs flag) s)).
Proof.
  intros Hok. rewrite evaluate_closed_form. cbn [forallb existsb].
  by rewrite Hok, !orb_false_r.
Qed.

Lemma dts_not_good flag c : (∃ rest, c = "dts" ++ rest) → c ∉ good_codecs flag.
Proof.
  intros [rest ->]. unfold good_codecs.
  destruct flag; rewrite ?elem_of_union, !elem_of_singleton; intros H;
    repeat destruct H as [H|H]; discriminate.
Qed.

Lemma lang_skipped_decide lang_tags lang :
  lang_skipped lang_tags lang
  = bool_decide (lang_tags ≠ [] ∧ lang ∉ lang_tags).
Proof.
  destruct (lang_skipped lang_tags lang) eqn:E; symmetry.
  - by apply bool_decide_eq_true, lang_skipped_true.
  - apply bool_decide_eq_false. intros H%lang_skipped_true. congruence.
Qed.

(** The iteration on a descriptor whose language is missing and whose codec
    name is absent, falsy or a string: the [continue] is taken exactly when
    the filter is non-empty and does not hold the empty string, and else
    both tests are made on the lowercased codec name. *)
Lemma loop_body_missing_language d lang_tags good st :
  missing_language d →
  text_or_falsy (d !! "codec_name") = true →
  loop_body lang_tags good st (PDict d)
  = if decide (lang_tags ≠ [] ∧ "" ∉ lang_tags) then Ok st
    else Ok (st.1 || startswith "dts" (lower (codec_text (PDict d))),
             st.2 || bool_decide (lower (codec_text (PDict d)) ∈ good)).
Proof.
  intros Hl Hc. rewrite loop_body_ok
    by (by rewrite descriptor_ok_dict, Hc, missing_language_tags_ok).
  unfold dts_candidate, acceptable. rewrite missing_language_text by done.
  change (lower "") with "". rewrite lang_skipped_decide.
  destruct (decide (lang_tags ≠ [] ∧ "" ∉ lang_tags)) as [H|H].
  - rewrite (bool_decide_eq_true_2 _ H). cbn [negb andb].
    rewrite !orb_false_r. by destruct st.
  - by rewrite (bool_decide_eq_false_2 _ H).
Qed.

(** C10, amended. For every descriptor: an absent or null codec name is read
    as the empty string, which neither starts with "dts" nor is an acceptable
    codec, so the descriptor leaves both findings as they were and has no
    part in the result; absent or null tags, and an absent or null language
    tag, are read as the empty language, and the scan then skips the
    descriptor (takes the [continue], so that it has no part in the result)
    exactly when the filter is non-empty and does not hold the empty string,
    which for a filter that the normalizer produced means exactly when the
    filter is non-empty, and else makes both tests on its codec name; and a
    missing field never makes the scan fail. *)
Theorem missing_fields_read_as_empty (d : gmap string pyval)
    (lang_tags : list string) (flag : bool) (st : bool * bool)
    (streams : list pyval) :
  (missing (d !! "codec_name") →
     stream_codec (PDict d) = Ok ""
     ∧ startswith "dts" "" = false
     ∧ ("" ∉ good_codecs flag)
     ∧ (tags_ok (d !! "tags") = true →
        loop_body lang_tags (good_codecs flag) st (PDict d) = Ok st
        ∧ _has_de_dts_and_no_de_good (PDict d :: streams) lang_tags flag
          = _has_de_dts_and_no_de_good streams lang_tags flag))
  ∧ (missing_language d →
     stream_lang (PDict d) = Ok ""
     ∧ (text_or_falsy (d !! "codec_name") = true →
        loop_body lang_tags (good_codecs flag) st (PDict d)
        = (if decide (lang_tags ≠ [] ∧ "" ∉ lang_tags) then Ok st
           else Ok (st.1 || startswith "dts" (lower (codec_text (PDict d))),
                    st.2 || bool_decide (lower (codec_text (PDict d))
                                         ∈ good_codecs flag)))
        ∧ (lang_tags ≠ [] ∧ "" ∉ lang_tags →
           _has_de_dts_and_no_de_good (PDict d :: streams) lang_tags flag
           = _has_de_dts_and_no_de_good streams lang_tags flag)
        ∧ ((∃ rest, lower (codec_text (PDict d)) = "dts" ++ rest) →
           (_has_de_dts_and_no_de_good [PDict d] lang_tags flag = Ok false
            ↔ lang_tags ≠ [] ∧ "" ∉ lang_tags)
           ∧ (_has_de_dts_and_no_de_good [PDict d] lang_tags flag = Ok true
              ↔ ¬ (lang_tags ≠ [] ∧ "" ∉ lang_tags))
           ∧ (∀ raw, _parse_lang_tags raw = Ok lang_tags →
              (_has_de_dts_and_no_de_good [PDict d] lang_tags flag = Ok false
               ↔ lang_tags ≠ [])))))
  ∧ (missing (d !! "codec_name") → missing_language d →
     loop_body lang_tags (good_codecs flag) st (PDict d) = Ok st
     ∧ _has_de_dts_and_no_de_good (PDict d :: streams) lang_tags flag
       = _has_de_dts_and_no_de_good streams lang_tags flag).
Proof.
  assert (Hgood : "" ∉ good_codecs flag).
  { unfold good_codecs. destruct flag;
      rewrite ?elem_of_union, !elem_of_singleton; intros H;
      repeat destruct H as [H|H]; discriminate. }
  assert (Hcodec : missing (d !! "codec_name") → tags_ok (d !! "tags") = true →
            ∀ st, loop_body lang_tags (good_codecs flag) st (PDict d) = Ok st).
  { intros Hc Ht st'. rewrite loop_body_ok
      by (rewrite descriptor_ok_dict, missing_text_or_falsy, Ht; done).
    unfold dts_candidate, acceptable, codec_text.
    rewrite (missing_text_of _ Hc). simpl lower.
    rewrite (bool_decide_eq_false_2 _ Hgood). simpl startswith.
    rewrite !andb_false_r, !orb_false_r. by destruct st'. }
  split_and!.
  - intros Hc. split_and!; [|done|done|].
    + rewrite stream_codec_dict, missing_text_or_falsy by done.
      unfold codec_text. by rewrite missing_text_of.
    + intros Ht. split; [by apply Hcodec|].
      apply evaluate_cons_neutral. by apply Hcodec.
  - intros Hl. split.
    { rewrite stream_lang_dict, missing_language_tags_ok by done.
      by rewrite missing_language_text. }
    intros Hc. split_and!.
    + by apply loop_body_missing_language.
    + intros Hskip. apply evaluate_cons_neutral. intros st'.
      rewrite loop_body_missing_language by done. by rewrite decide_True.
    + intros Hdts.
      assert (_has_de_dts_and_no_de_good [PDict d] lang_tags flag
              = Ok (negb (bool_decide (lang_tags ≠ [] ∧ "" ∉ lang_tags))))
        as Hone.
      { rewrite evaluate_single
          by (by rewrite descriptor_ok_dict, Hc, missing_language_tags_ok).
        unfold dts_candidate, acceptable.
        rewrite missing_language_text by done. change (lower "") with "".
        rewrite lang_skipped_decide.
        rewrite (proj2 (startswith_prefix "dts" _) Hdts).
        rewrite (bool_decide_eq_false_2 _ (dts_not_good flag _ Hdts)).
        by destruct (bool_decide _). }
      rewrite Hone. split_and!.
      * destruct (bool_decide_reflect (lang_tags ≠ [] ∧ "" ∉ lang_tags));
          split; intros; simplify_eq/=; done.
      * destruct (bool_decide_reflect (lang_tags ≠ [] ∧ "" ∉ lang_tags));
          split; intros; simplify_eq/=; done.
      * intros raw Hraw.
        pose proof (parse_lang_tags_no_empty _ _ Hraw) as Hne.
        destruct (bool_decide_reflect (lang_tags ≠ [] ∧ "" ∉ lang_tags))
          as [[? ?]|Hn]; split; intros; simplify_eq/=; try done.
        destruct Hn. by split.
  - intros Hc Hl.
    pose proof (Hcodec Hc (missing_language_tags_ok _ Hl)) as H.
    split; [by apply H|by apply evaluate_cons_neutral].
Qed.

(** C10 as stated fails at two inputs.  A descriptor that has no tags but
    the codec "dts" is, with no filter, counted as a DTS candidate although a
    field of it is missing; and with the filter [[""]], which is not empty,
    the scan does not skip it: the iteration records a DTS candidate, and
    the file is admitted. *)
Lemma missing_language_not_skipped :
  let d : gmap string pyval := {[ "codec_name" := PStr "dts" ]} in
  missing_language d
  ∧ _has_de_dts_and_no_de_good [PDict d] [] true = Ok true
  ∧ [""] ≠ @nil string
  ∧ loop_body [""] (good_codecs true) (false, false) (PDict d)
    = Ok (true, false)
  ∧ _has_de_dts_and_no_de_good [PDict d] [""] true = Ok true.
Proof.
  intros d. split_and!.
  - left. by left.
  - vm_compute. reflexivity.
  - done.
  - vm_compute. reflexivity.
  - vm_compute. reflexivity.
Qed.

(** ** The stream prober *)

Lemma ffprobe_run_failed w path e :
  subprocess_run w (ffprobe_cmd path) = Raise e →
  _ffprobe_audio_streams w path = Ok [].
Proof. unfold _ffprobe_audio_streams. by intros ->. Qed.

Lemma ffprobe_decode_failed w path out :
  subprocess_run w (ffprobe_cmd path) = Ok out →
  json_loads w out = Raise JSONDecodeError →
  _ffprobe_audio_streams w path = Ok [].
Proof. unfold _ffprobe_audio_streams. by intros -> ->. Qed.

Lemma ffprobe_not_an_object w path out v :
  subprocess_run w (ffprobe_cmd path) = Ok out →
  json_loads w out = Ok v →
  (∀ d, v ≠ PDict d) →
  _ffprobe_audio_streams w path = Raise AttributeError.
Proof.
  unfold _ffprobe_audio_streams. intros -> -> Hv.
  destruct v; try done. by destruct (Hv d).
Qed.

Lemma ffprobe_streams_not_iterable w path out d v :
  subprocess_run w (ffprobe_cmd path) = Ok out →
  json_loads w out = Ok (PDict d) →
  d !! "streams" = Some v →
  truthy v = true →
  py_iter v = Raise TypeError →
  _ffprobe_audio_streams w path = Raise TypeError.
Proof.
  unfold _ffprobe_audio_streams. intros -> -> Hv Ht Hi. simpl.
  rewrite Hv. simpl. unfold py_or. rewrite Ht. by rewrite Hi.
Qed.

Lemma audio_only_dicts streams :
  Forall (λ s, ∃ d, s = PDict d) streams →
  audio_only streams
  = Ok (filter (λ s, Is_true (py_eq_str (default PNone
                       (match s with PDict d => d !! "codec_type" | _ => None end))
                       "audio")) streams).
Proof.
  induction 1 as [|s l [d ->] _ IH]; [done|].
  cbn [audio_only]. rewrite IH, filter_cons. cbn.
  by destruct (py_eq_str _ _).
Qed.

(** The intended path: the tool prints an object whose "streams" is a list
    of objects, and the prober returns those of type "audio". *)
Lemma ffprobe_well_formed w path out d streams :
  subprocess_run w (ffprobe_cmd path) = Ok out →
  json_loads w out = Ok (PDict d) →
  d !! "streams" = Some (PList streams) →
  Forall (λ s, ∃ d, s = PDict d) streams →
  ∃ kept, _ffprobe_audio_streams w path = Ok kept ∧ kept ⊆ streams.
Proof.
  unfold _ffprobe_audio_streams. intros -> -> Hs Hd. simpl.
  rewrite Hs. simpl. unfold py_or.
  destruct streams as [|s l]; simpl truthy; cbn [py_iter mbind res_bind].
  - by exists [].
  - rewrite audio_only_dicts by done. eexists; split; [done|].
    intros x Hx. by apply list_elem_of_filter in Hx as [_ ?].
Qed.

(** C2 fails on the code: the tool exits with status 0 after printing the
    JSON text [[]]; the text parses, the parsed value is a list, and the
    lookup of "streams" on it raises AttributeError, which no handler
    catches. *)
Theorem ffprobe_audio_streams_raises :
  subprocess_run (tool_prints "[]" (PList [])) (ffprobe_cmd (PStr "/media/film.mkv"))
    = Ok "[]"
  ∧ json_loads (tool_prints "[]" (PList [])) "[]" = Ok (PList [])
  ∧ _ffprobe_audio_streams (tool_prints "[]" (PList [])) (PStr "/media/film.mkv")
    = Raise AttributeError.
Proof. split_and!; reflexivity. Qed.

(** ** The orchestration *)

Lemma append_issue_ok entry data iss :
  data !! "issues" = Some (PList iss) →
  append_issue entry data
  = (Ok tt, <["issues" := PList (iss ++ [entry])]> data).
Proof. unfold append_issue. by intros ->. Qed.

Lemma append_issue_frame entry data key :
  key ≠ "issues" → (append_issue entry data).2 !! key = data !! key.
Proof.
  intros Hkey. unfold append_issue.
  destruct (data !! "issues") as [[| | | | |l|]|]; simpl; try done.
  by rewrite lookup_insert_ne.
Qed.

Section paths.
Context (w : world) (data : gmap string pyval) (lang_tags : list string).
Hypothesis Hparse : _parse_lang_tags (lang_raw w data) = Ok lang_tags.

Lemma run_no_path :
  truthy (path_of data) = false →
  on_library_management_file_test w data
  = append_issue (issue msg_no_path) data.
Proof. unfold on_library_management_file_test. rewrite Hparse. by intros ->. Qed.

Lemma run_no_streams :
  truthy (path_of data) = true →
  _ffprobe_audio_streams w (path_of data) = Ok [] →
  on_library_management_file_test w data
  = append_issue (issue msg_no_streams) data.
Proof.
  unfold on_library_management_file_test. rewrite Hparse. by intros -> ->.
Qed.

Lemma run_decided streams b :
  truthy (path_of data) = true →
  _ffprobe_audio_streams w (path_of data) = Ok streams →
  streams ≠ [] →
  _has_de_dts_and_no_de_good streams lang_tags (treat_truehd w data) = Ok b →
  on_library_management_file_test w data
  = append_issue (issue (if b then msg_admit else msg_ignore))
      (<["add_file_to_pending_tasks" := PBool b]> data).
Proof.
  unfold on_library_management_file_test. rewrite Hparse.
  intros -> -> Hne ->. destruct streams; [done|]. by destruct b.
Qed.
End paths.

(** C3. For every invocation in which probing is inconclusive (no path is
    supplied, or the prober returns no stream), the entry
    add_file_to_pending_tasks of [data] is what it was before, present or
    absent; and when [issues] is a list and the language setting is
    readable, the call returns normally and [data] differs from before only
    in one diagnostic appended to [issues]. *)
Theorem inconclusive_leaves_flag (w : world) (data : gmap string pyval) :
  truthy (path_of data) = false
  ∨ _ffprobe_audio_streams w (path_of data) = Ok [] →
  (on_library_management_file_test w data).2 !! "add_file_to_pending_tasks"
    = data !! "add_file_to_pending_tasks"
  ∧ ∀ iss lang_tags,
      data !! "issues" = Some (PList iss) →
      _parse_lang_tags (lang_raw w data) = Ok lang_tags →
      ∃ msg, on_library_management_file_test w data
             = (Ok tt, <["issues" := PList (iss ++ [issue msg])]> data).
Proof.
  intros Hinc.
  assert (∀ lang_tags, _parse_lang_tags (lang_raw w data) = Ok lang_tags →
            ∃ msg, on_library_management_file_test w data
                   = append_issue (issue msg) data) as Hrun.
  { intros lang_tags Hp. destruct (truthy (path_of data)) eqn:Ht.
    - destruct Hinc as [|Hs]; [done|]. eexists. by eapply run_no_streams.
    - eexists. by eapply run_no_path. }
  split.
  - destruct (_parse_lang_tags (lang_raw w data)) as [lang_tags|e] eqn:Hp.
    + destruct (Hrun _ eq_refl) as [msg ->]. by apply append_issue_frame.
    + unfold on_library_management_file_test. by rewrite Hp.
  - intros iss lang_tags Hiss Hp. destruct (Hrun _ Hp) as [msg ->].
    exists msg. by apply append_issue_ok.
Qed.

Lemma inconclusive_leaves_flag_witness :
  let data : gmap string pyval :=
    {[ "path" := PStr "/media/film.mkv";
       "issues" := PList [];
       "add_file_to_pending_tasks" := PBool true ]} in
  (truthy (path_of data) = false
   ∨ _ffprobe_audio_streams tool_missing (path_of data) = Ok [])
  ∧ (on_library_management_file_test tool_missing data).2
      !! "add_file_to_pending_tasks" = Some (PBool true).
Proof.
  intros data.
  assert (truthy (path_of data) = false
          ∨ _ffprobe_audio_streams tool_missing (path_of data) = Ok [])
    as Hinc by (right; reflexivity).
  split; [exact Hinc|].
  exact (proj1 (inconclusive_leaves_flag tool_missing data Hinc)).
Defined.

(** C4. For every invocation in which the prober yields a non-empty list of
    streams and the evaluator returns the boolean [b] on it, the entry
    add_file_to_pending_tasks of [data] is afterwards [b] itself, true for
    true and false for false, whatever it was before. *)
Theorem decided_sets_flag (w : world) (data : gmap string pyval)
    (lang_tags : list string) (streams : list pyval) (b : bool) :
  _parse_lang_tags (lang_raw w data) = Ok lang_tags →
  truthy (path_of data) = true →
  _ffprobe_audio_streams w (path_of data) = Ok streams →
  streams ≠ [] →
  _has_de_dts_and_no_de_good streams lang_tags (treat_truehd w data) = Ok b →
  (on_library_management_file_test w data).2 !! "add_file_to_pending_tasks"
    = Some (PBool b).
Proof.
  intros Hp Ht Hs Hne Hb. rewrite (run_decided w data lang_tags Hp streams b Ht Hs Hne Hb).
  rewrite append_issue_frame by done. apply lookup_insert_eq.
Qed.

(** C9. On each of the four paths on which the call returns (no path, no
    streams, evaluator true, evaluator false), when [issues] is a list, the
    call returns normally and [issues] is afterwards the list it was with
    exactly one entry appended, whose id is
    "de_dts_without_de_ac3_eac3_truehd" and whose message is a string. *)
Theorem one_issue_appended (w : world) (data : gmap string pyval)
    (iss : list pyval) (lang_tags : list string) :
  data !! "issues" = Some (PList iss) →
  _parse_lang_tags (lang_raw w data) = Ok lang_tags →
  truthy (path_of data) = false
  ∨ _ffprobe_audio_streams w (path_of data) = Ok []
  ∨ (∃ streams b,
       _ffprobe_audio_streams w (path_of data) = Ok streams ∧ streams ≠ []
       ∧ _has_de_dts_and_no_de_good streams lang_tags (treat_truehd w data)
         = Ok b) →
  ∃ msg,
    (on_library_management_file_test w data).1 = Ok tt
    ∧ (on_library_management_file_test w data).2 !! "issues"
      = Some (PList (iss ++
          [PDict {[ "id" := PStr "de_dts_without_de_ac3_eac3_truehd";
                    "message" := PStr msg ]}])).
Proof.
  intros Hiss Hp Hpath.
  assert (∃ msg data', data' !! "issues" = Some (PList iss)
            ∧ on_library_management_file_test w data
              = append_issue (issue msg) data') as (msg & data' & Hiss' & ->).
  { destruct (truthy (path_of data)) eqn:Ht.
    - destruct Hpath as [|[Hs|(streams & b & Hs & Hne & Hb)]]; [done| |].
      + exists msg_no_streams, data. split; [done|]. by eapply run_no_streams.
      + eexists _, _. split; [|by eapply run_decided].
        by rewrite lookup_insert_ne.
    - exists msg_no_path, data. split; [done|]. by eapply run_no_path. }
  exists msg. rewrite (append_issue_ok _ _ _ Hiss'). simpl.
  split; [done|]. apply lookup_insert_eq.
Qed.

Lemma decided_sets_flag_witness :
  (on_library_management_file_test one_dts_stream
     (host_data "/media/film.mkv")).2 !! "add_file_to_pending_tasks"
  = Some (PBool true).
Proof.
  apply (decided_sets_flag one_dts_stream (host_data "/media/film.mkv")
           ["deu"; "de"; "ger"] [descriptor "dts" "deu"] true);
    [reflexivity|reflexivity|reflexivity|discriminate|reflexivity].
Defined.

Lemma one_issue_appended_witness :
  ∃ msg,
    (on_library_management_file_test one_dts_stream
       (host_data "/media/film.mkv")).1 = Ok tt
    ∧ (on_library_management_file_test one_dts_stream
         (host_data "/media/film.mkv")).2 !! "issues"
      = Some (PList ([] ++
          [PDict {[ "id" := PStr "de_dts_without_de_ac3_eac3_truehd";
                    "message" := PStr msg ]}])).
Proof.
  apply (one_issue_appended one_dts_stream (host_data "/media/film.mkv")
           [] ["deu"; "de"; "ger"]); [reflexivity|reflexivity|].
  right. right. exists [descriptor "dts" "deu"], true.
  split; [reflexivity|]. split; [discriminate|reflexivity].
Defined.

Lemma missing_fields_read_as_empty_witness :
  loop_body ["deu"] (good_codecs true) (true, false)
    (PDict {[ "codec_type" := PStr "audio"; "tags" := PNone ]})
  = Ok (true, false).
Proof.
  apply (missing_fields_read_as_empty
           {[ "codec_type" := PStr "audio"; "tags" := PNone ]}
           ["deu"] true (true, false) []).
  - left. reflexivity.
  - left. right. reflexivity.
Defined.

(** * Further properties *)

(** ** The tag normalizer *)

Lemma has_char_lower_comma s :
  has_char "," (lower s) = has_char "," s.
Proof.
  induction s as [|c s IH]; simpl; [done|]. rewrite IH. f_equal.
  destruct c as [[] [] [] [] [] [] [] []]; reflexivity.
Qed.

Lemma has_char_lstrip sep s :
  has_char sep s = false → has_char sep (lstrip s) = false.
Proof.
  induction s as [|c s IH]; simpl; [done|].
  intros [Hc Hs]%orb_false_iff. destruct (is_space c); [by apply IH|].
  simpl. by rewrite Hc, Hs.
Qed.

Lemma has_char_rstrip sep s :
  has_char sep s = false → has_char sep (rstrip s) = false.
Proof.
  induction s as [|c s IH]; simpl; [done|].
  intros [Hc Hs]%orb_false_iff. specialize (IH Hs).
  destruct (rstrip s) as [|c' r]; simpl in *.
  - destruct (is_space c); simpl; [done|]. by rewrite Hc.
  - by rewrite Hc, IH.
Qed.

Lemma split_comma_free sep p : has_char sep p = false → split sep p = [p].
Proof.
  induction p as [|c p IH]; simpl; [done|].
  intros [Hc Hp]%orb_false_iff. rewrite Hc, IH; done.
Qed.

Lemma split_app_sep sep p rest :
  has_char sep p = false →
  split sep (p ++ String sep rest) = p :: split sep rest.
Proof.
  induction p as [|c p IH]; simpl.
  - by rewrite Ascii.eqb_refl.
  - intros [Hc Hp]%orb_false_iff. by rewrite Hc, IH.
Qed.

Lemma split_join sep l :
  l ≠ [] → Forall (λ p, has_char sep p = false) l →
  split sep (join (String sep "") l) = l.
Proof.
  intros Hne Hl. induction Hl as [|p l Hp Hl IH]; [done|].
  destruct l as [|q l].
  - by apply split_comma_free.
  - change (join (String sep "") (p :: q :: l))
      with (p ++ String sep (join (String sep "") (q :: l))).
    rewrite split_app_sep by done. by rewrite IH.
Qed.

Lemma token_comma_free s t : t ∈ normalize_spec s → has_char "," t = false.
Proof.
  unfold normalize_spec. intros Ht.
  apply list_elem_of_In, in_map_iff in Ht as (u & <- & Hu).
  apply list_elem_of_In, list_elem_of_filter in Hu as [_ Hu].
  apply list_elem_of_In, in_map_iff in Hu as (p & <- & Hp).
  rewrite has_char_lower_comma. unfold strip.
  apply has_char_rstrip, has_char_lstrip.
  by apply (split_no_sep _ s), list_elem_of_In.
Qed.

Lemma normalize_fixed l :
  Forall (λ t, t ≠ "" ∧ lower t = t ∧ strip t = t) l →
  map lower (filter (λ t, t ≠ "") (map strip l)) = l.
Proof.
  induction 1 as [|t l (Hne & Hlow & Hstrip) _ IH]; [done|].
  cbn [map]. rewrite filter_cons, Hstrip.
  destruct (decide (t ≠ "")); [|done]. cbn [map]. by rewrite Hlow, IH.
Qed.

Lemma parse_lang_tags_ok_inv raw lang_tags :
  _parse_lang_tags raw = Ok lang_tags →
  lang_tags = [] ∨ ∃ s, raw = PStr s ∧ lang_tags = normalize_spec s.
Proof.
  destruct raw as [| | | |s| |].
  5: { rewrite parse_lang_tags_str. intros [= <-]. right. by exists s. }
  all: unfold _parse_lang_tags; destruct (truthy _); simpl; try done.
  all: intros [= <-]; by left.
Qed.

(** X1. Writing the tags that the normalizer returned back as a
    comma-separated setting and normalizing that setting gives the same
    tags. *)
Theorem parse_lang_tags_round_trip (raw : pyval) (lang_tags : list string) :
  _parse_lang_tags raw = Ok lang_tags →
  _parse_lang_tags (PStr (join "," lang_tags)) = Ok lang_tags.
Proof.
  intros [->|(s & -> & ->)]%parse_lang_tags_ok_inv; [done|].
  rewrite parse_lang_tags_str. f_equal.
  destruct (normalize_spec s) as [|t l] eqn:E; [done|]. rewrite <- E.
  unfold normalize_spec at 1. rewrite split_join.
  - apply normalize_fixed, Forall_forall. intros x Hx.
    by apply (normalize_spec_token s).
  - by rewrite E.
  - apply Forall_forall. intros x Hx. by apply (token_comma_free s).
Qed.

Lemma parse_lang_tags_round_trip_witness :
  _parse_lang_tags (PStr (join "," ["deu"; "de"; "ger"]))
  = Ok ["deu"; "de"; "ger"].
Proof.
  apply (parse_lang_tags_round_trip (PStr " DEU, de ,,Ger ,  ")). reflexivity.
Defined.

Lemma rstrip_empty_iff s : rstrip s = "" ↔ string_forall is_space s = true.
Proof.
  induction s as [|c s IH]; simpl; [done|].
  rewrite andb_true_iff, <- IH.
  destruct (rstrip s); destruct (is_space c); split; try done; by intros [? ?].
Qed.

Lemma lstrip_forall s :
  string_forall is_space (lstrip s) = string_forall is_space s.
Proof.
  induction s as [|c s IH]; simpl; [done|].
  destruct (is_space c) eqn:Hc; simpl; [done|]. by rewrite Hc.
Qed.

Lemma strip_empty_iff s : strip s = "" ↔ string_forall is_space s = true.
Proof. unfold strip. by rewrite rstrip_empty_iff, lstrip_forall. Qed.

Lemma blank_pieces s :
  string_forall (λ c, is_space c || Ascii.eqb c ",") s = true
  ↔ Forall (λ p, string_forall is_space p = true) (split "," s).
Proof.
  induction s as [|c s IH]; simpl.
  - split; [by repeat constructor|done].
  - pose proof (split_nonempty "," s) as Hne.
    rewrite andb_true_iff, IH. destruct (Ascii.eqb c ",") eqn:Hc.
    + rewrite orb_true_r, Forall_cons. simpl. tauto.
    + rewrite orb_false_r. destruct (split "," s) as [|p ps]; [done|].
      rewrite !Forall_cons. simpl. rewrite andb_true_iff. tauto.
Qed.

Lemma normalize_spec_nil_iff s :
  normalize_spec s = []
  ↔ Forall (λ p, string_forall is_space p = true) (split "," s).
Proof.
  unfold normalize_spec. generalize (split "," s) as l.
  induction l as [|p l IH]; [by split; [constructor|]|].
  cbn [map]. rewrite filter_cons, Forall_cons, <- IH, <- strip_empty_iff.
  destruct (decide (strip p ≠ "")) as [H|H]; cbn [map].
  - split; [done|]. by intros [? _].
  - apply dec_stable in H. tauto.
Qed.

(** X2. The normalizer returns the empty filter exactly for the settings
    that consist of whitespace and commas only (the empty setting among
    them): any other character leaves at least one tag. *)
Theorem parse_lang_tags_empty_iff (s : string) :
  _parse_lang_tags (PStr s) = Ok []
  ↔ string_forall (λ c, is_space c || Ascii.eqb c ",") s = true.
Proof.
  rewrite parse_lang_tags_str, blank_pieces, <- normalize_spec_nil_iff.
  split; [by intros [= ->]|by intros ->].
Qed.

(** ** The admission evaluator *)

Lemma forallb_ok_Forall streams :
  forallb descriptor_ok streams = true
  ↔ Forall (λ s, descriptor_ok s = true) streams.
Proof.
  rewrite forallb_forall, Forall_forall.
  by setoid_rewrite list_elem_of_In.
Qed.

Lemma existsb_ext_in {A} (f g : A → bool) l :
  (∀ x, x ∈ l → f x = g x) → existsb f l = existsb g l.
Proof.
  induction l as [|x l IH]; intros H; simpl; [done|].
  rewrite (H x) by left. rewrite IH; [done|]. intros y Hy. apply H. by right.
Qed.

Lemma existsb_same_elems {A} (f : A → bool) l l' :
  (∀ x, x ∈ l ↔ x ∈ l') → existsb f l = existsb f l'.
Proof.
  intros H. apply eq_true_iff_eq. rewrite !existsb_exists.
  setoid_rewrite <- list_elem_of_In. by setoid_rewrite H.
Qed.

Lemma forallb_same_elems {A} (f : A → bool) l l' :
  (∀ x, x ∈ l ↔ x ∈ l') → forallb f l = forallb f l'.
Proof.
  intros H. apply eq_true_iff_eq. rewrite !forallb_forall.
  setoid_rewrite <- list_elem_of_In. by setoid_rewrite H.
Qed.

Lemma existsb_filter {A} (f g : A → bool) l :
  (∀ x, f x = true → g x = true) →
  existsb f (filter (λ x, Is_true (g x)) l) = existsb f l.
Proof.
  intros Hfg. induction l as [|x l IH]; [done|].
  rewrite filter_cons. destruct (decide (Is_true (g x))) as [H|H]; simpl.
  - by rewrite IH.
  - rewrite IH. destruct (f x) eqn:Hf; [|done].
    destruct H. by apply Is_true_true, Hfg.
Qed.

(** X3. Descriptors whose language the filter does not let through have no
    part in the result: leaving them out of the list changes nothing. *)
Theorem evaluate_other_languages_irrelevant (streams : list pyval)
    (lang_tags : list string) (flag : bool) :
  Forall (λ s, descriptor_ok s = true) streams →
  _has_de_dts_and_no_de_good
    (filter (λ s, Is_true (in_language lang_tags s)) streams) lang_tags flag
  = _has_de_dts_and_no_de_good streams lang_tags flag.
Proof.
  intros Hok. rewrite !evaluate_closed_form.
  assert (Forall (λ s, descriptor_ok s = true)
            (filter (λ s, Is_true (in_language lang_tags s)) streams)) as Hok'.
  { apply Forall_forall. intros s [_ Hs]%list_elem_of_filter.
    rewrite Forall_forall in Hok. by apply Hok. }
  apply forallb_ok_Forall in Hok, Hok'. rewrite Hok, Hok'.
  rewrite !existsb_filter; [done|idtac..]; intros s;
    unfold dts_candidate, acceptable, in_language; by intros [? _]%andb_true_iff.
Qed.

Lemma evaluate_other_languages_irrelevant_witness :
  _has_de_dts_and_no_de_good
    (filter (λ s, Is_true (in_language ["deu"] s))
       [descriptor "ac3" "eng"; descriptor "dts" "deu"]) ["deu"] true
  = _has_de_dts_and_no_de_good
      [descriptor "ac3" "eng"; descriptor "dts" "deu"] ["deu"] true.
Proof.
  apply (evaluate_other_languages_irrelevant
           [descriptor "ac3" "eng"; descriptor "dts" "deu"] ["deu"] true).
  constructor; [reflexivity|]. constructor; [reflexivity|]. constructor.
Defined.

(** X4. The result depends only on which descriptors occur in the list, not
    on how often or where: two lists with the same elements give the same
    result. *)
Theorem evaluate_same_elements (streams streams' : list pyval)
    (lang_tags : list string) (flag : bool) :
  (∀ s, s ∈ streams ↔ s ∈ streams') →
  _has_de_dts_and_no_de_good streams lang_tags flag
  = _has_de_dts_and_no_de_good streams' lang_tags flag.
Proof.
  intros H. rewrite !evaluate_closed_form.
  rewrite (forallb_same_elems _ _ _ H).
  rewrite (existsb_same_elems (dts_candidate lang_tags) _ _ H).
  by rewrite (existsb_same_elems (acceptable lang_tags _) _ _ H).
Qed.

Lemma evaluate_same_elements_witness :
  _has_de_dts_and_no_de_good
    [descriptor "dts" "deu"; descriptor "dts" "deu"] ["deu"] true
  = _has_de_dts_and_no_de_good [descriptor "dts" "deu"] ["deu"] true.
Proof.
  apply (evaluate_same_elements
           [descriptor "dts" "deu"; descriptor "dts" "deu"]
           [descriptor "dts" "deu"] ["deu"] true).
  intros s. rewrite !elem_of_cons. tauto.
Defined.

Lemma lang_skipped_same_tags lang_tags lang_tags' lang :
  (∀ t, t ∈ lang_tags ↔ t ∈ lang_tags') →
  lang_skipped lang_tags lang = lang_skipped lang_tags' lang.
Proof.
  intros H. destruct lang_tags as [|t l], lang_tags' as [|t' l']; simpl.
  - done.
  - exfalso. apply (not_elem_of_nil t'), H. by left.
  - exfalso. apply (not_elem_of_nil t), H. by left.
  - f_equal. apply bool_decide_ext, H.
Qed.

(** X5. The language filter acts as a set: two filters with the same
    members, in any order and with any repetitions, give the same result on
    every list of descriptors. *)
Theorem evaluate_filter_as_set (streams : list pyval)
    (lang_tags lang_tags' : list string) (flag : bool) :
  (∀ t, t ∈ lang_tags ↔ t ∈ lang_tags') →
  _has_de_dts_and_no_de_good streams lang_tags flag
  = _has_de_dts_and_no_de_good streams lang_tags' flag.
Proof.
  intros H. rewrite !evaluate_closed_form.
  rewrite (existsb_ext_in (dts_candidate lang_tags) (dts_candidate lang_tags')).
  2: { intros s _. unfold dts_candidate.
       by rewrite (lang_skipped_same_tags _ _ _ H). }
  rewrite (existsb_ext_in (acceptable lang_tags (good_codecs flag))
             (acceptable lang_tags' (good_codecs flag))).
  2: { intros s _. unfold acceptable.
       by rewrite (lang_skipped_same_tags _ _ _ H). }
  done.
Qed.

Lemma evaluate_filter_as_set_witness :
  _has_de_dts_and_no_de_good [descriptor "dts" "ger"] ["deu"; "ger"] true
  = _has_de_dts_and_no_de_good [descriptor "dts" "ger"] ["ger"; "deu"; "ger"]
      true.
Proof.
  apply (evaluate_filter_as_set [descriptor "dts" "ger"]
           ["deu"; "ger"] ["ger"; "deu"; "ger"] true).
  intros t. rewrite !elem_of_cons. tauto.
Defined.

Lemma existsb_never {A} (l : list A) : existsb (λ _, false) l = false.
Proof. by induction l. Qed.

(** X6. The evaluator lowercases the language of a stream but not the tags
    of the filter: a non-empty filter none of whose tags is in lower case
    lets no descriptor through, and the result is false. *)
Theorem evaluate_filter_not_lowercase (streams : list pyval)
    (lang_tags : list string) (flag : bool) :
  lang_tags ≠ [] →
  (∀ t, t ∈ lang_tags → lower t ≠ t) →
  Forall (λ s, descriptor_ok s = true) streams →
  _has_de_dts_and_no_de_good streams lang_tags flag = Ok false.
Proof.
  intros Hne Hup Hok. rewrite evaluate_closed_form.
  apply forallb_ok_Forall in Hok. rewrite Hok.
  rewrite (existsb_ext_in _ (λ _, false)).
  - by rewrite existsb_never.
  - intros s _. unfold dts_candidate.
    assert (lang_skipped lang_tags (lower (language_text s)) = true) as ->;
      [|done].
    apply lang_skipped_true. split; [done|]. intros Hin.
    apply (Hup _ Hin), lower_idemp.
Qed.

Lemma evaluate_filter_not_lowercase_witness :
  _has_de_dts_and_no_de_good [descriptor "dts" "deu"] ["DEU"] true = Ok false.
Proof.
  apply (evaluate_filter_not_lowercase [descriptor "dts" "deu"] ["DEU"] true).
  - discriminate.
  - intros t ->%list_elem_of_singleton. discriminate.
  - constructor; [reflexivity|constructor].
Defined.

Lemma existsb_Forall2 {A} (f : A → bool) (R : A → A → Prop) l l' :
  Forall2 R l l' → (∀ x y, R x y → f x = f y) → existsb f l = existsb f l'.
Proof.
  intros H HR. induction H as [|x y l l' Hxy _ IH]; simpl; [done|].
  by rewrite (HR _ _ Hxy), IH.
Qed.

(** X7. The evaluator reads nothing of a descriptor but its codec name and
    its language, both without regard to case: two lists whose descriptors
    agree, position by position, on the lowercased codec name and the
    lowercased language give the same result. *)
Theorem evaluate_reads_two_fields (streams streams' : list pyval)
    (lang_tags : list string) (flag : bool) :
  Forall2 (λ s s', descriptor_ok s = true ∧ descriptor_ok s' = true
                   ∧ lower (codec_text s) = lower (codec_text s')
                   ∧ lower (language_text s) = lower (language_text s'))
          streams streams' →
  _has_de_dts_and_no_de_good streams lang_tags flag
  = _has_de_dts_and_no_de_good streams' lang_tags flag.
Proof.
  intros H. rewrite !evaluate_closed_form.
  assert (forallb descriptor_ok streams = true) as ->.
  { apply forallb_ok_Forall. eapply Forall2_Forall_l; [done|].
    apply Forall_true. by intros s s' (? & _). }
  assert (forallb descriptor_ok streams' = true) as ->.
  { apply forallb_ok_Forall. eapply Forall2_Forall_r; [done|].
    apply Forall_true. by intros s s' (_ & ? & _). }
  rewrite (existsb_Forall2 (dts_candidate lang_tags) _ _ _ H).
  2: { intros s s' (_ & _ & Hc & Hl). unfold dts_candidate. by rewrite Hc, Hl. }
  rewrite (existsb_Forall2 (acceptable lang_tags (good_codecs flag)) _ _ _ H).
  2: { intros s s' (_ & _ & Hc & Hl). unfold acceptable. by rewrite Hc, Hl. }
  done.
Qed.

Lemma evaluate_reads_two_fields_witness :
  _has_de_dts_and_no_de_good [descriptor "DTS" "Deu"] ["deu"] true
  = _has_de_dts_and_no_de_good
      [PDict {[ "index" := PInt 1; "codec_name" := PStr "dts";
                "tags" := PDict {[ "language" := PStr "DEU";
                                   "title" := PStr "Surround" ]} ]}]
      ["deu"] true.
Proof.
  apply evaluate_reads_two_fields.
  constructor; [|constructor]. repeat split; reflexivity.
Defined.

Lemma acceptable_flag lang_tags s :
  acceptable lang_tags (good_codecs false) s = true →
  acceptable lang_tags (good_codecs true) s = true.
Proof.
  unfold acceptable. rewrite !andb_true_iff, !bool_decide_eq_true.
  intros [? H]. split; [done|]. unfold good_codecs in *.
  apply elem_of_union. by left.
Qed.

(** X8. Counting TrueHD as a good codec can only turn an admission into a
    rejection: whatever is admitted with the option on is admitted with the
    option off. *)
Theorem evaluate_truehd_monotone (streams : list pyval)
    (lang_tags : list string) :
  _has_de_dts_and_no_de_good streams lang_tags true = Ok true →
  _has_de_dts_and_no_de_good streams lang_tags false = Ok true.
Proof.
  rewrite !evaluate_closed_form.
  destruct (forallb descriptor_ok streams); [|done].
  intros [= [Hd Hg]%andb_true_iff]. f_equal. rewrite Hd. simpl.
  apply negb_true_iff, not_true_iff_false. intros Hex.
  apply negb_true_iff, not_true_iff_false in Hg. apply Hg.
  apply existsb_exists in Hex as (s & Hs & Ha).
  apply existsb_exists. exists s. split; [done|]. by apply acceptable_flag.
Qed.

Lemma evaluate_truehd_monotone_witness :
  _has_de_dts_and_no_de_good [descriptor "dts" "deu"] ["deu"] false = Ok true.
Proof.
  apply (evaluate_truehd_monotone [descriptor "dts" "deu"] ["deu"]).
  vm_compute. reflexivity.
Defined.

(** X9. The TrueHD option changes the result only for a file that has a
    TrueHD stream in a language the filter lets through: if the file is
    admitted with the option off and rejected with it on, such a stream
    exists. *)
Theorem evaluate_truehd_difference (streams : list pyval)
    (lang_tags : list string) :
  _has_de_dts_and_no_de_good streams lang_tags false = Ok true →
  _has_de_dts_and_no_de_good streams lang_tags true = Ok false →
  ∃ s, s ∈ streams
     ∧ passes lang_tags (lower (language_text s))
     ∧ lower (codec_text s) = "truehd".
Proof.
  rewrite !evaluate_closed_form.
  destruct (forallb descriptor_ok streams); [|done].
  intros [= [Hd Hg]%andb_true_iff]. rewrite Hd. simpl.
  intros [= Hg'%negb_false_iff].
  apply existsb_exists in Hg' as (s & Hs & Ha).
  exists s. split; [by apply list_elem_of_In|].
  apply acceptable_spec in Ha as [Hp Hin]. split; [done|].
  unfold good_codecs in Hin. apply elem_of_union in Hin as [Hin|Hin].
  - apply negb_true_iff, not_true_iff_false in Hg. destruct Hg.
    apply existsb_exists. exists s. split; [done|]. by apply acceptable_spec.
  - by apply elem_of_singleton in Hin.
Qed.

Lemma evaluate_truehd_difference_witness :
  ∃ s, s ∈ [descriptor "truehd" "deu"; descriptor "dts" "deu"]
     ∧ passes ["deu"] (lower (language_text s))
     ∧ lower (codec_text s) = "truehd".
Proof.
  apply (evaluate_truehd_difference
           [descriptor "truehd" "deu"; descriptor "dts" "deu"] ["deu"]);
    vm_compute; reflexivity.
Defined.

(** ** The stream prober *)

Lemma audio_only_filter streams :
  Forall (λ s, ∃ d, s = PDict d) streams →
  audio_only streams = Ok (filter (λ s, Is_true (is_audio s)) streams).
Proof.
  induction 1 as [|s l [d ->] _ IH]; [done|].
  cbn [audio_only]. rewrite IH, filter_cons. cbn.
  by destruct (py_eq_str _ _).
Qed.

Lemma audio_only_not_dict streams :
  ¬ Forall (λ s, ∃ d, s = PDict d) streams →
  audio_only streams = Raise AttributeError.
Proof.
  induction streams as [|s l IH]; intros H; [by destruct H|].
  destruct s as [| | | | | |d]; try done. cbn.
  rewrite IH; [done|]. intros Hl. apply H. constructor; [by exists d|done].
Qed.

Lemma audio_only_sound streams kept :
  audio_only streams = Ok kept → Forall (λ s, is_audio s = true) kept.
Proof.
  revert kept. induction streams as [|s l IH]; intros kept; cbn.
  - intros [= <-]. constructor.
  - destruct s as [| | | | | |d]; try done. cbn.
    destruct (audio_only l) as [k|e]; [|done]. cbn.
    specialize (IH k eq_refl).
    destruct (py_eq_str _ _) eqn:Ha; intros [= <-]; [|done].
    by constructor.
Qed.

(** X10. When the tool prints an object whose "streams" entry is a list of
    objects, the prober returns exactly the entries whose codec_type is the
    string "audio", in the order printed; an entry that is not an object
    makes it raise AttributeError instead. *)
Theorem ffprobe_returns_audio_entries (w : world) (path : pyval)
    (out : string) (d : gmap string pyval) (streams : list pyval) :
  subprocess_run w (ffprobe_cmd path) = Ok out →
  json_loads w out = Ok (PDict d) →
  d !! "streams" = Some (PList streams) →
  (Forall (λ s, ∃ d', s = PDict d') streams →
   _ffprobe_audio_streams w path
   = Ok (filter (λ s, Is_true (is_audio s)) streams))
  ∧ (¬ Forall (λ s, ∃ d', s = PDict d') streams →
     _ffprobe_audio_streams w path = Raise AttributeError).
Proof.
  unfold _ffprobe_audio_streams. intros -> -> Hs. cbn. rewrite Hs. cbn.
  unfold py_or. split; intros H.
  - destruct streams as [|s l]; [done|].
    cbn [truthy py_iter mbind res_bind]. by apply audio_only_filter.
  - destruct streams as [|s l]; [destruct H; constructor|].
    cbn [truthy py_iter mbind res_bind]. by apply audio_only_not_dict.
Qed.

Lemma ffprobe_returns_audio_entries_witness :
  _ffprobe_audio_streams one_dts_stream (PStr "/media/film.mkv")
  = Ok (filter (λ s, Is_true (is_audio s)) [descriptor "dts" "deu"]).
Proof.
  apply (ffprobe_returns_audio_entries one_dts_stream (PStr "/media/film.mkv")
           one_dts_stream_text {[ "streams" := PList [descriptor "dts" "deu"] ]}
           [descriptor "dts" "deu"]); [reflexivity..|].
  constructor; [by eexists|constructor].
Defined.

(** X11. When the tool prints an object that has no "streams" entry, or one
    that is null or empty (an empty list, string or object, zero, false),
    the prober returns the empty list. *)
Theorem ffprobe_no_streams_entry (w : world) (path : pyval) (out : string)
    (d : gmap string pyval) :
  subprocess_run w (ffprobe_cmd path) = Ok out →
  json_loads w out = Ok (PDict d) →
  truthy (default PNone (d !! "streams")) = false →
  _ffprobe_audio_streams w path = Ok [].
Proof.
  unfold _ffprobe_audio_streams. intros -> -> Ht. cbn.
  unfold py_or. by rewrite Ht.
Qed.

Lemma ffprobe_no_streams_entry_witness :
  _ffprobe_audio_streams (tool_prints "{}" (PDict ∅)) (PStr "/media/film.mkv")
  = Ok [].
Proof.
  apply (ffprobe_no_streams_entry (tool_prints "{}" (PDict ∅))
           (PStr "/media/film.mkv") "{}" ∅); reflexivity.
Defined.

(** X12. Whatever the tool and the parser do, every element of a list that
    the prober returns is an object whose codec_type is the string
    "audio". *)
Theorem ffprobe_result_is_audio (w : world) (path : pyval)
    (kept : list pyval) :
  _ffprobe_audio_streams w path = Ok kept →
  Forall (λ s, ∃ d, s = PDict d ∧ d !! "codec_type" = Some (PStr "audio"))
         kept.
Proof.
  intros H.
  assert (Forall (λ s, is_audio s = true) kept) as Ha.
  { revert H. unfold _ffprobe_audio_streams.
    destruct (subprocess_run w _) as [out|e]; [|intros [= <-]; constructor].
    destruct (json_loads w out) as [v|[]]; try done;
      [|intros [= <-]; constructor].
    destruct v as [| | | | | |d]; try done. cbn.
    destruct (py_iter _) as [items|e]; [|done]. cbn.
    apply audio_only_sound. }
  eapply Forall_impl; [exact Ha|]. intros s Hs.
  destruct s as [| | | | | |d]; try done. exists d. split; [done|].
  unfold is_audio in Hs.
  destruct (d !! "codec_type") as [[| | | |t| |]|]; try done.
  cbn in Hs. by apply String.eqb_eq in Hs as ->.
Qed.

Lemma ffprobe_result_is_audio_witness :
  Forall (λ s, ∃ d, s = PDict d ∧ d !! "codec_type" = Some (PStr "audio"))
         [descriptor "dts" "deu"].
Proof.
  apply (ffprobe_result_is_audio one_dts_stream (PStr "/media/film.mkv")).
  reflexivity.
Defined.

Lemma audio_only_raises streams e :
  audio_only streams = Raise e → e = AttributeError.
Proof.
  induction streams as [|s l IH]; cbn; [done|].
  destruct s as [| | | | | |d]; cbn; try (by intros [= <-]).
  destruct (audio_only l) as [k|e']; cbn; [done|].
  intros [= <-]. by apply IH.
Qed.

(** X13. The prober lets no failure of the tool itself through and none of
    the parser's decode errors: an exception that leaves it is an
    AttributeError or a TypeError from reading the parsed value, or an
    exception other than JSONDecodeError that the parser raised on the
    tool's output. *)
Theorem ffprobe_exceptions (w : world) (path : pyval) (e : exn) :
  _ffprobe_audio_streams w path = Raise e →
  ∃ out, subprocess_run w (ffprobe_cmd path) = Ok out
       ∧ e ≠ JSONDecodeError
       ∧ (json_loads w out = Raise e
          ∨ ∃ v, json_loads w out = Ok v
               ∧ (e = AttributeError ∨ e = TypeError)).
Proof.
  unfold _ffprobe_audio_streams.
  destruct (subprocess_run w _) as [out|e0]; [|done].
  intros H. exists out. split; [done|].
  destruct (json_loads w out) as [v|e1].
  - assert (e = AttributeError ∨ e = TypeError) as He.
    { destruct v as [| | | | | |d]; try (injection H as <-; by left).
      cbn in H. destruct (py_iter _) as [items|e2] eqn:Hi; cbn in H.
      - left. by apply (audio_only_raises items).
      - injection H as <-. right. unfold py_iter in Hi.
        destruct (py_or _ _); congruence. }
    split; [by destruct He as [-> | ->]|]. right. by exists v.
  - destruct e1; try done; injection H as <-; (split; [done|by left]).
Qed.

Lemma ffprobe_exceptions_witness :
  ∃ out, subprocess_run (tool_prints "[]" (PList []))
           (ffprobe_cmd (PStr "/media/film.mkv")) = Ok out
       ∧ AttributeError ≠ JSONDecodeError
       ∧ (json_loads (tool_prints "[]" (PList [])) out = Raise AttributeError
          ∨ ∃ v, json_loads (tool_prints "[]" (PList [])) out = Ok v
               ∧ (AttributeError = AttributeError
                  ∨ AttributeError = TypeError)).
Proof.
  apply (ffprobe_exceptions (tool_prints "[]" (PList []))
           (PStr "/media/film.mkv") AttributeError).
  reflexivity.
Defined.

(** ** The orchestration *)

Lemma append_issue_shape entry data :
  (∃ iss, data !! "issues" = Some (PList iss)
        ∧ append_issue entry data
          = (Ok tt, <["issues" := PList (iss ++ [entry])]> data))
  ∨ (∃ e, append_issue entry data = (Raise e, data)
        ∧ ∀ iss, data !! "issues" ≠ Some (PList iss)).
Proof.
  unfold append_issue.
  destruct (data !! "issues") as [[| | | | |l|]|]; try (right; by eexists).
  left. by exists l.
Qed.

(** The four ways through the function, and the way out by an exception
    that is raised before [data] is touched. *)
Lemma run_shape w data :
  (∃ e, on_library_management_file_test w data = (Raise e, data))
  ∨ (∃ lang_tags, _parse_lang_tags (lang_raw w data) = Ok lang_tags
       ∧ ((truthy (path_of data) = false
           ∧ on_library_management_file_test w data
             = append_issue (issue msg_no_path) data)
          ∨ (truthy (path_of data) = true
             ∧ _ffprobe_audio_streams w (path_of data) = Ok []
             ∧ on_library_management_file_test w data
               = append_issue (issue msg_no_streams) data)
          ∨ (∃ streams b,
               truthy (path_of data) = true
               ∧ _ffprobe_audio_streams w (path_of data) = Ok streams
               ∧ streams ≠ []
               ∧ _has_de_dts_and_no_de_good streams lang_tags
                   (treat_truehd w data) = Ok b
               ∧ on_library_management_file_test w data
                 = append_issue (issue (if b then msg_admit else msg_ignore))
                     (<["add_file_to_pending_tasks" := PBool b]> data)))).
Proof.
  destruct (_parse_lang_tags (lang_raw w data)) as [lang_tags|e] eqn:Hp.
  2: { left. exists e. unfold on_library_management_file_test. by rewrite Hp. }
  destruct (truthy (path_of data)) eqn:Ht.
  2: { right. exists lang_tags. split; [done|]. left. split; [done|].
       by apply (run_no_path w data lang_tags). }
  destruct (_ffprobe_audio_streams w (path_of data)) as [streams|e] eqn:Hs.
  2: { left. exists e. unfold on_library_management_file_test.
       by rewrite Hp, Ht, Hs. }
  destruct streams as [|s l].
  { right. exists lang_tags. split; [done|]. right. left.
    split_and!; [done..|]. by apply (run_no_streams w data lang_tags). }
  destruct (_has_de_dts_and_no_de_good (s :: l) lang_tags (treat_truehd w data))
    as [b|e] eqn:Hb.
  2: { left. exists e. unfold on_library_management_file_test.
       by rewrite Hp, Ht, Hs, Hb. }
  right. exists lang_tags. split; [done|]. right. right.
  exists (s :: l), b. split_and!; [done..|].
  by apply (run_decided w data lang_tags Hp (s :: l) b).
Qed.

Lemma run_frame w data key :
  key ≠ "issues" → key ≠ "add_file_to_pending_tasks" →
  (on_library_management_file_test w data).2 !! key = data !! key.
Proof.
  intros Hi Hf.
  destruct (run_shape w data)
    as [[e ->]|(tags & _ & [[_ ->]|[(_ & _ & ->)|(l & b & _ & _ & _ & _ & ->)]])];
    [done|by apply append_issue_frame..|].
  rewrite append_issue_frame by done. by apply lookup_insert_ne.
Qed.

(** X14. A language setting that is neither empty nor a string (a number, a
    list, true) makes the call raise AttributeError before it has looked at
    the path or changed [data]. *)
Theorem misconfigured_tags_raise (w : world) (data : gmap string pyval) :
  truthy (lang_raw w data) = true →
  (∀ s, lang_raw w data ≠ PStr s) →
  on_library_management_file_test w data = (Raise AttributeError, data).
Proof.
  intros Ht Hs. unfold on_library_management_file_test, _parse_lang_tags.
  rewrite Ht. cbn. destruct (lang_raw w data); try done. by destruct (Hs s).
Qed.

Lemma misconfigured_tags_raise_witness :
  on_library_management_file_test
    {| subprocess_run := λ _, Raise FileNotFoundError;
       json_loads := λ _, Raise JSONDecodeError;
       get_setting := λ _ _, PInt 7 |}
    (host_data "/media/film.mkv")
  = (Raise AttributeError, host_data "/media/film.mkv").
Proof.
  apply misconfigured_tags_raise; [reflexivity|discriminate].
Defined.

(** X15. The call changes nothing of [data] but the entries "issues" and
    "add_file_to_pending_tasks": every other key holds afterwards what it
    held before, whether the call returns or raises. *)
Theorem run_changes_two_keys (w : world) (data : gmap string pyval)
    (key : string) :
  key ≠ "issues" → key ≠ "add_file_to_pending_tasks" →
  (on_library_management_file_test w data).2 !! key = data !! key.
Proof. apply run_frame. Qed.

Lemma run_changes_two_keys_witness :
  (on_library_management_file_test one_dts_stream (host_data "/media/film.mkv")).2
    !! "path"
  = host_data "/media/film.mkv" !! "path".
Proof.
  apply (run_changes_two_keys one_dts_stream (host_data "/media/film.mkv")
           "path"); discriminate.
Defined.

(** X16. A diagnostic is appended exactly when the call returns: if it
    returns, "issues" was a list and is afterwards that list with one entry
    of this plugin at its end; if it raises, "issues" is what it was. *)
Theorem issue_appended_iff_returns (w : world) (data : gmap string pyval) :
  ((on_library_management_file_test w data).1 = Ok tt →
   ∃ iss msg,
     data !! "issues" = Some (PList iss)
     ∧ (on_library_management_file_test w data).2 !! "issues"
       = Some (PList (iss ++ [issue msg])))
  ∧ (∀ e, (on_library_management_file_test w data).1 = Raise e →
     (on_library_management_file_test w data).2 !! "issues"
     = data !! "issues").
Proof.
  assert (∀ entry data' r, data' !! "issues" = data !! "issues" →
            r = append_issue entry data' →
            (r.1 = Ok tt → ∃ iss, data !! "issues" = Some (PList iss)
                ∧ r.2 !! "issues" = Some (PList (iss ++ [entry])))
            ∧ (∀ e, r.1 = Raise e → r.2 !! "issues" = data !! "issues"))
    as Happ.
  { intros entry data' r Hsame ->.
    destruct (append_issue_shape entry data')
      as [(iss & Hiss & ->)|(e & -> & _)]; cbn.
    - split; [|done]. intros _. exists iss. rewrite <- Hsame.
      split; [done|]. apply lookup_insert_eq.
    - split; [done|]. by intros _ _. }
  destruct (run_shape w data)
    as [[e ->]|(tags & _ & [[_ H]|[(_ & _ & H)|(l & b & _ & _ & _ & _ & H)]])].
  - cbn. split; [done|]. by intros _ _.
  - destruct (Happ _ data _ eq_refl H) as [H1 H2].
    split; [|done]. intros Hr. destruct (H1 Hr) as (iss & ? & ?). by eexists _, _.
  - destruct (Happ _ data _ eq_refl H) as [H1 H2].
    split; [|done]. intros Hr. destruct (H1 Hr) as (iss & ? & ?). by eexists _, _.
  - assert (<["add_file_to_pending_tasks" := PBool b]> data !! "issues"
            = data !! "issues") as Hsame by (by apply lookup_insert_ne).
    destruct (Happ _ _ _ Hsame H) as [H1 H2].
    split; [|done]. intros Hr. destruct (H1 Hr) as (iss & ? & ?). by eexists _, _.
Qed.

(** X17. The admission flag is written before the diagnostic is appended:
    for a file that is decided while [data] has no "issues" entry, the call
    raises KeyError and leaves [data] with the flag already set. *)
Theorem flag_set_before_key_error (w : world) (data : gmap string pyval)
    (lang_tags : list string) (streams : list pyval) (b : bool) :
  data !! "issues" = None →
  _parse_lang_tags (lang_raw w data) = Ok lang_tags →
  truthy (path_of data) = true →
  _ffprobe_audio_streams w (path_of data) = Ok streams →
  streams ≠ [] →
  _has_de_dts_and_no_de_good streams lang_tags (treat_truehd w data) = Ok b →
  on_library_management_file_test w data
  = (Raise KeyError, <["add_file_to_pending_tasks" := PBool b]> data).
Proof.
  intros Hi Hp Ht Hs Hne Hb.
  rewrite (run_decided w data lang_tags Hp streams b Ht Hs Hne Hb).
  unfold append_issue. rewrite lookup_insert_ne by done. by rewrite Hi.
Qed.

Lemma flag_set_before_key_error_witness :
  on_library_management_file_test one_dts_stream {[ "path" := PStr "/media/film.mkv" ]}
  = (Raise KeyError,
     <["add_file_to_pending_tasks" := PBool true]>
       {[ "path" := PStr "/media/film.mkv" ]}).
Proof.
  apply (flag_set_before_key_error one_dts_stream
           {[ "path" := PStr "/media/film.mkv" ]}
           ["deu"; "de"; "ger"] [descriptor "dts" "deu"] true);
    [reflexivity|reflexivity|reflexivity|reflexivity|discriminate|reflexivity].
Defined.

(** X18. The admission flag changes only through a decision: after the call
    it is what it was before, unless the path is set, the prober has
    returned a non-empty list and the evaluator has returned a boolean on
    it, and then the flag is that boolean. *)
Theorem flag_changes_only_by_decision (w : world)
    (data : gmap string pyval) :
  (on_library_management_file_test w data).2 !! "add_file_to_pending_tasks"
    = data !! "add_file_to_pending_tasks"
  ∨ ∃ lang_tags streams b,
      _parse_lang_tags (lang_raw w data) = Ok lang_tags
      ∧ truthy (path_of data) = true
      ∧ _ffprobe_audio_streams w (path_of data) = Ok streams
      ∧ streams ≠ []
      ∧ _has_de_dts_and_no_de_good streams lang_tags (treat_truehd w data)
        = Ok b
      ∧ (on_library_management_file_test w data).2
          !! "add_file_to_pending_tasks" = Some (PBool b).
Proof.
  destruct (run_shape w data)
    as [[e ->]|(tags & Hp & [[_ ->]|[(_ & _ & ->)|(l & b & Ht & Hs & Hne & Hb & ->)]])].
  - by left.
  - left. by apply append_issue_frame.
  - left. by apply append_issue_frame.
  - right. exists tags, l, b. split_and!; [done..|].
    rewrite append_issue_frame by done. apply lookup_insert_eq.
Qed.

Lemma lang_raw_insert w data key v :
  key ≠ "library_id" → lang_raw w (<[key := v]> data) = lang_raw w data.
Proof.
  intros Hk. unfold lang_raw, settings_for. by rewrite lookup_insert_ne.
Qed.

Lemma treat_truehd_insert w data key v :
  key ≠ "library_id" →
  treat_truehd w (<[key := v]> data) = treat_truehd w data.
Proof.
  intros Hk. unfold treat_truehd, settings_for. by rewrite lookup_insert_ne.
Qed.

Lemma path_of_insert data key v :
  key ≠ "path" → path_of (<[key := v]> data) = path_of data.
Proof. intros Hk. unfold path_of. by rewrite lookup_insert_ne. Qed.

(** X19. The call can be repeated.  Let the first call, in the world [w],
    return on [data], and let the second call be made on the [data] that the
    first one left, in a world [w'] that may differ from [w] but in which
    the two settings read the same and the prober returns the same for the
    path.  Then the second call returns too, the admission flag is the same
    after it as after the first, and "issues" has grown by the same
    diagnostic twice. *)
Theorem run_twice (w w' : world) (data : gmap string pyval) :
  lang_raw w' data = lang_raw w data →
  treat_truehd w' data = treat_truehd w data →
  _ffprobe_audio_streams w' (path_of data)
    = _ffprobe_audio_streams w (path_of data) →
  (on_library_management_file_test w data).1 = Ok tt →
  ∃ iss msg,
    data !! "issues" = Some (PList iss)
    ∧ (on_library_management_file_test w data).2 !! "issues"
      = Some (PList (iss ++ [issue msg]))
    ∧ (on_library_management_file_test w'
         (on_library_management_file_test w data).2).1 = Ok tt
    ∧ (on_library_management_file_test w'
         (on_library_management_file_test w data).2).2 !! "issues"
      = Some (PList (iss ++ [issue msg; issue msg]))
    ∧ (on_library_management_file_test w'
         (on_library_management_file_test w data).2).2
        !! "add_file_to_pending_tasks"
      = (on_library_management_file_test w data).2
          !! "add_file_to_pending_tasks".
Proof.
  intros Hsame_l Hsame_t Hsame_p.
  destruct (run_shape w data)
    as [[e ->]|(tags & Hp & [[Ht ->]|[(Ht & Hs & ->)|(l & b & Ht & Hs & Hne & Hb & ->)]])];
    [done|..]; intros Hr.
  - destruct (append_issue_shape (issue msg_no_path) data)
      as [(iss & Hiss & ->)|(e & Hx & _)]; [|by rewrite Hx in Hr].
    exists iss, msg_no_path. cbn [fst snd].
    rewrite (run_no_path w' _ tags); cycle 1.
    { by rewrite lang_raw_insert, Hsame_l. }
    { by rewrite path_of_insert. }
    rewrite (append_issue_ok _ _ (iss ++ [issue msg_no_path]))
      by apply lookup_insert_eq.
    cbn [fst snd]. rewrite insert_insert_eq, !lookup_insert_eq, <- app_assoc.
    by rewrite !lookup_insert_ne by done.
  - destruct (append_issue_shape (issue msg_no_streams) data)
      as [(iss & Hiss & ->)|(e & Hx & _)]; [|by rewrite Hx in Hr].
    exists iss, msg_no_streams. cbn [fst snd].
    rewrite (run_no_streams w' _ tags); cycle 1.
    { by rewrite lang_raw_insert, Hsame_l. }
    { by rewrite path_of_insert. }
    { by rewrite path_of_insert, Hsame_p. }
    rewrite (append_issue_ok _ _ (iss ++ [issue msg_no_streams]))
      by apply lookup_insert_eq.
    cbn [fst snd]. rewrite insert_insert_eq, !lookup_insert_eq, <- app_assoc.
    by rewrite !lookup_insert_ne by done.
  - set (msg := if b then msg_admit else msg_ignore) in *.
    set (data1 := <["add_file_to_pending_tasks" := PBool b]> data) in *.
    destruct (append_issue_shape (issue msg) data1)
      as [(iss & Hiss & ->)|(e & Hx & _)]; [|by rewrite Hx in Hr].
    exists iss, msg. cbn [fst snd].
    assert (data !! "issues" = Some (PList iss)) as Hiss0.
    { by rewrite <- Hiss; unfold data1; rewrite lookup_insert_ne. }
    set (data2 := <["issues" := PList (iss ++ [issue msg])]> data1).
    assert (lang_raw w' data2 = lang_raw w data) as Hl.
    { unfold data2, data1. by rewrite !lang_raw_insert. }
    assert (treat_truehd w' data2 = treat_truehd w data) as Htr.
    { unfold data2, data1. by rewrite !treat_truehd_insert. }
    assert (path_of data2 = path_of data) as Hpa.
    { unfold data2, data1. by rewrite !path_of_insert. }
    rewrite (run_decided w' data2 tags ltac:(by rewrite Hl) l b);
      rewrite ?Hpa, ?Htr, ?Hsame_p; try done.
    fold msg.
    rewrite (append_issue_ok _ _ (iss ++ [issue msg])).
    2: { rewrite lookup_insert_ne by done. apply lookup_insert_eq. }
    cbn [fst snd]. split_and!.
    + done.
    + unfold data2. apply lookup_insert_eq.
    + done.
    + by rewrite lookup_insert_eq, <- app_assoc.
    + rewrite lookup_insert_ne by done. rewrite lookup_insert_eq.
      unfold data2. rewrite lookup_insert_ne by done.
      unfold data1. by rewrite lookup_insert_eq.
Qed.

Lemma run_twice_witness :
  let w' := {| subprocess_run := λ _, Ok "out";
               json_loads := λ _, Ok one_dts_stream_value;
               get_setting := λ _ key,
                 if String.eqb key "Treat Dolby TrueHD as good codec"
                 then PInt 1 else PStr "deu,de,ger" |} in
  ∃ iss msg,
    host_data "/media/film.mkv" !! "issues" = Some (PList iss)
    ∧ (on_library_management_file_test one_dts_stream
         (host_data "/media/film.mkv")).2 !! "issues"
      = Some (PList (iss ++ [issue msg]))
    ∧ (on_library_management_file_test w'
         (on_library_management_file_test one_dts_stream
            (host_data "/media/film.mkv")).2).1 = Ok tt
    ∧ (on_library_management_file_test w'
         (on_library_management_file_test one_dts_stream
            (host_data "/media/film.mkv")).2).2 !! "issues"
      = Some (PList (iss ++ [issue msg; issue msg]))
    ∧ (on_library_management_file_test w'
         (on_library_management_file_test one_dts_stream
            (host_data "/media/film.mkv")).2).2
        !! "add_file_to_pending_tasks"
      = (on_library_management_file_test one_dts_stream
           (host_data "/media/film.mkv")).2
          !! "add_file_to_pending_tasks".
Proof.
  intros w'.
  apply (run_twice one_dts_stream w' (host_data "/media/film.mkv"));
    reflexivity.
Defined.

(** ** The three parts together *)

Lemma ffprobe_list_of_dicts w path out d streams :
  subprocess_run w (ffprobe_cmd path) = Ok out →
  json_loads w out = Ok (PDict d) →
  d !! "streams" = Some (PList streams) →
  Forall (λ s, ∃ d', s = PDict d') streams →
  _ffprobe_audio_streams w path
  = Ok (filter (λ s, Is_true (is_audio s)) streams).
Proof.
  unfold _ffprobe_audio_streams. intros -> -> Hs H. cbn. rewrite Hs. cbn.
  unfold py_or. destruct streams as [|s l]; [done|].
  cbn [truthy py_iter mbind res_bind]. by apply audio_only_filter.
Qed.

Lemma admitted_iff streams lang_tags good :
  existsb (dts_candidate lang_tags) streams
  && negb (existsb (acceptable lang_tags good) streams) = true
  ↔ (∃ s, s ∈ streams
        ∧ passes lang_tags (lower (language_text s))
        ∧ ∃ rest, lower (codec_text s) = "dts" ++ rest)
    ∧ ¬ (∃ s, s ∈ streams
            ∧ passes lang_tags (lower (language_text s))
            ∧ lower (codec_text s) ∈ good).
Proof.
  rewrite andb_true_iff, negb_true_iff, <- not_true_iff_false.
  rewrite !existsb_exists.
  setoid_rewrite <- list_elem_of_In.
  setoid_rewrite dts_candidate_spec. by setoid_rewrite acceptable_spec.
Qed.

(** X20. From the tool's output to the flag.  Let the language setting be
    the string [s], the path be set, "issues" be a list, and the tool print
    an object whose "streams" is a list of well-typed descriptors.  Only the
    entries of type "audio" count.  If there is none, the call appends the
    no-streams diagnostic and changes nothing else.  Otherwise it sets the
    flag to a boolean and appends the matching diagnostic, and the boolean
    is true exactly when some audio entry in a language of the normalized
    setting has a codec name starting with "dts" and no such entry has an
    acceptable codec. *)
Theorem decision_from_tool_output (w : world) (data : gmap string pyval)
    (s out : string) (d : gmap string pyval) (streams iss : list pyval) :
  lang_raw w data = PStr s →
  truthy (path_of data) = true →
  data !! "issues" = Some (PList iss) →
  subprocess_run w (ffprobe_cmd (path_of data)) = Ok out →
  json_loads w out = Ok (PDict d) →
  d !! "streams" = Some (PList streams) →
  Forall (λ x, descriptor_ok x = true) streams →
  let kept := filter (λ x, Is_true (is_audio x)) streams in
  let lang_tags := normalize_spec s in
  (kept = [] →
   on_library_management_file_test w data
   = (Ok tt, <["issues" := PList (iss ++ [issue msg_no_streams])]> data))
  ∧ (kept ≠ [] →
     ∃ b : bool, on_library_management_file_test w data
          = (Ok tt,
             <["issues" := PList (iss ++
                  [issue (if b then msg_admit else msg_ignore)])]>
               (<["add_file_to_pending_tasks" := PBool b]> data))
        ∧ (b = true ↔
             (∃ x, x ∈ kept
                 ∧ passes lang_tags (lower (language_text x))
                 ∧ ∃ rest, lower (codec_text x) = "dts" ++ rest)
             ∧ ¬ (∃ x, x ∈ kept
                     ∧ passes lang_tags (lower (language_text x))
                     ∧ lower (codec_text x)
                       ∈ good_codecs (treat_truehd w data)))).
Proof.
  intros Hraw Ht Hiss Hrun Hloads Hs Hok kept lang_tags.
  assert (_parse_lang_tags (lang_raw w data) = Ok lang_tags) as Hp.
  { rewrite Hraw. apply parse_lang_tags_str. }
  assert (_ffprobe_audio_streams w (path_of data) = Ok kept) as Hprobe.
  { eapply ffprobe_list_of_dicts; [done..|].
    eapply Forall_impl; [exact Hok|]. intros x Hx.
    destruct x; try done. by eexists. }
  split.
  - intros Hk. rewrite Hk in Hprobe.
    rewrite (run_no_streams w data lang_tags Hp Ht Hprobe).
    by apply append_issue_ok.
  - intros Hk.
    assert (forallb descriptor_ok kept = true) as Hok'.
    { apply forallb_ok_Forall, Forall_forall.
      intros x [_ Hx]%list_elem_of_filter.
      rewrite Forall_forall in Hok. by apply Hok. }
    pose proof (evaluate_closed_form kept lang_tags (treat_truehd w data))
      as Hb.
    rewrite Hok' in Hb.
    exists (existsb (dts_candidate lang_tags) kept
            && negb (existsb (acceptable lang_tags
                                (good_codecs (treat_truehd w data))) kept)).
    split.
    + rewrite (run_decided w data lang_tags Hp kept _ Ht Hprobe Hk Hb).
      apply append_issue_ok. by rewrite lookup_insert_ne.
    + apply admitted_iff.
Qed.

Lemma decision_from_tool_output_witness :
  on_library_management_file_test one_dts_stream (host_data "/media/film.mkv")
  = (Ok tt,
     <["issues" := PList ([] ++ [issue msg_admit])]>
       (<["add_file_to_pending_tasks" := PBool true]>
          (host_data "/media/film.mkv"))).
Proof.
  destruct (decision_from_tool_output one_dts_stream
              (host_data "/media/film.mkv") "deu,de,ger" one_dts_stream_text
              {[ "streams" := PList [descriptor "dts" "deu"] ]}
              [descriptor "dts" "deu"] [])
    as [_ H]; [reflexivity..| |].
  - constructor; [reflexivity|constructor].
  - destruct H as (b & Hrun & Hb); [discriminate|].
    rewrite Hrun. destruct b; [reflexivity|].
    exfalso. revert Hrun. vm_compute. discriminate.
Defined.
